(** * Decoratable request pipeline with a TTL cache

  A shallow embedding of

  - [Structural Patterns/Decorator Pattern/Middleware/main.py]
    (module [Middleware] below): the HTTP middleware chain, and
  - [Structural Patterns/Proxy Pattern/StockAPI/main.py]
    (module [StockAPI] below): the caching proxy in front of a stock
    service,

  together with the properties of the pipeline and of the cache that the
  specification states.

  Conventions of the embedding.

  - Python objects that are shared and mutated (the responses) live in a
    heap and are passed around as locations; objects private to a unit
    (its cache table, counters, request log) are fields of the unit.
  - [handle] is state passing: it takes the handler object, the request
    and the world, and gives back the outcome (a returned response or a
    raised exception), the handler object after the call and the world
    after the call.
  - The clock is an oracle [clock : nat -> Z] in microseconds; every
    [time.time()] or [datetime.now()] reads it at the current tick and
    advances the tick.  Durations that the program keeps as floats (the
    latencies, in milliseconds) are exact rationals here.  Datetimes are
    integers without bounds; the properties that depend on the bounds of
    [datetime] assume that the arithmetic stays within them.
  - Strings are sequences of 8-bit characters; [str.lower] and [json.dumps]
    are modelled on ASCII text, and the properties that depend on them for
    arbitrary strings are stated for ASCII text.
  - Standard output is a list of events, one per [print] statement (or
    per block of consecutive [print]s). *)

From stdpp Require Import base decidable option numbers list strings pretty gmap.
From Stdlib Require Import ZArith String Ascii QArith_base Qcanon Field.

Local Open Scope Z_scope.

(** ** Python strings *)

Module PyStr.

(** [c.lower()] on one ASCII letter; other characters are unchanged. *)
Definition lower_ascii (c : ascii) : ascii :=
  let n := nat_of_ascii c in
  if (Nat.leb 65 n && Nat.leb n 90)%bool then ascii_of_nat (n + 32) else c.

(** [s.lower()] on the letters [A] to [Z]: what [str.lower] does to an
    ASCII string.  (On other strings [str.lower] also lowers letters outside
    ASCII; properties of [lower] on arbitrary names are stated for ASCII
    names.) *)
Fixpoint lower (s : string) : string :=
  match s with
  | EmptyString => EmptyString
  | String c s' => String (lower_ascii c) (lower s')
  end.

(** [s.isascii()] *)
Definition isascii (s : string) : bool :=
  forallb (fun c => Nat.ltb (nat_of_ascii c) 128) (list_ascii_of_string s).

(** [s.startswith(p)] *)
Definition startswith (s p : string) : bool := String.prefix p s.

(** [p in s] *)
Fixpoint contains (p s : string) : bool :=
  String.prefix p s ||
  match s with
  | EmptyString => false
  | String _ s' => contains p s'
  end.

(** [s.replace(old, new)] for a non-empty [old]: every occurrence of
    [old], found left to right without overlap, becomes [new].  [skip]
    counts the characters of a matched occurrence still to drop. *)
Fixpoint replace_from (old new : string) (skip : nat) (s : string) : string :=
  match s with
  | EmptyString => EmptyString
  | String c s' =>
      match skip with
      | S k => replace_from old new k s'
      | O =>
          if String.prefix old s
          then new +:+ replace_from old new (String.length old - 1) s'
          else String c (replace_from old new 0 s')
      end
  end.

Definition replace (s old new : string) : string := replace_from old new 0 s.

(** The double quote character. *)
Definition dquote : string := String "034"%char EmptyString.
Definition backslash : string := String "092"%char EmptyString.

(** Truthiness of an optional string: [None] and the empty string are
    falsy. *)
Definition truthy (o : option string) : bool :=
  match o with
  | None | Some EmptyString => false
  | Some _ => true
  end.

End PyStr.

(** ** JSON values and [json.dumps] *)

Module Json.

#[warnings="-register-all"]
Inductive t :=
| Null
| Bool (b : bool)
| Int (n : Z)
| Float (repr : string)        (* a float, kept as its [repr] *)
| Str (s : string)
| Arr (items : list t)
| Obj (fields : list (string * t)).

(** String escaping of [json.dumps] for the quote, the backslash, newline,
    carriage return and tab; other characters are emitted as they are, which
    is what [json.dumps] does with printable ASCII (it writes the other
    control characters and everything outside ASCII as escapes; see
    [plain]). *)
Fixpoint escape (s : string) : string :=
  match s with
  | EmptyString => EmptyString
  | String c s' =>
      (if Ascii.eqb c "034"%char then PyStr.backslash +:+ PyStr.dquote
       else if Ascii.eqb c "092"%char then PyStr.backslash +:+ PyStr.backslash
       else if Ascii.eqb c "010"%char then PyStr.backslash +:+ "n"
       else if Ascii.eqb c "013"%char then PyStr.backslash +:+ "r"
       else if Ascii.eqb c "009"%char then PyStr.backslash +:+ "t"
       else String c EmptyString) +:+ escape s'
  end.

Definition quoted (s : string) : string :=
  PyStr.dquote +:+ escape s +:+ PyStr.dquote.

Fixpoint join (sep : string) (l : list string) : string :=
  match l with
  | [] => ""
  | [x] => x
  | x :: l' => x +:+ sep +:+ join sep l'
  end.

(** [json.dumps(v)] with the default separators [", "] and [": "]. *)
Fixpoint dumps (v : t) : string :=
  match v with
  | Null => "null"
  | Bool true => "true"
  | Bool false => "false"
  | Int n => pretty n
  | Float r => r
  | Str s => quoted s
  | Arr items => "[" +:+ join ", " (map dumps items) +:+ "]"
  | Obj fields =>
      "{" +:+ join ", " (map (fun kv => quoted (fst kv) +:+ ": " +:+ dumps (snd kv)) fields) +:+ "}"
  end.

(** The values on which [dumps] is [json.dumps] to the letter: every
    string in them, keys included, is made of printable ASCII characters
    (codes 32 to 126), and every float is a number ([json.dumps] writes the
    floats whose [repr] is [nan], [inf] or [-inf] as [NaN], [Infinity] and
    [-Infinity]). *)
Definition plain_string (s : string) : bool :=
  forallb (fun c => Nat.leb 32 (nat_of_ascii c) && Nat.leb (nat_of_ascii c) 126)%bool
    (list_ascii_of_string s).

Fixpoint plain (v : t) : bool :=
  match v with
  | Null | Bool _ | Int _ => true
  | Float r => negb (String.eqb r "nan" || String.eqb r "inf" || String.eqb r "-inf")
  | Str s => plain_string s
  | Arr items => forallb plain items
  | Obj fields => forallb (fun kv => plain_string (fst kv) && plain (snd kv))%bool fields
  end.

(** [d[k] = v] on a dict kept as its items in insertion order. *)
Fixpoint set_item (k : string) (v : t) (fields : list (string * t)) : list (string * t) :=
  match fields with
  | [] => [(k, v)]
  | (k', v') :: fs =>
      if String.eqb k k' then (k, v) :: fs else (k', v') :: set_item k v fs
  end.

(** [d.get(k)] on a dict kept as its items. *)
Fixpoint get_item (k : string) (fields : list (string * t)) : option t :=
  match fields with
  | [] => None
  | (k', v') :: fs => if String.eqb k k' then Some v' else get_item k fs
  end.

End Json.

(** ** The middleware chain ([Decorator Pattern/Middleware/main.py]) *)

Module Middleware.

(** *** Data model *)

Inductive HTTPMethod := GET | POST | PUT | DELETE | PATCH.

#[global] Instance HTTPMethod_eq_dec : EqDecision HTTPMethod.
Proof. solve_decision. Defined.

(** [method.value] *)
Definition value (m : HTTPMethod) : string :=
  match m with
  | GET => "GET" | POST => "POST" | PUT => "PUT"
  | DELETE => "DELETE" | PATCH => "PATCH"
  end.

(** The values middleware units leave in [request.context]. *)
Inductive PyVal := PStr (s : string) | PBool (b : bool).

#[global] Instance PyVal_eq_dec : EqDecision PyVal.
Proof. solve_decision. Defined.

#[global] Instance PyVal_countable : Countable PyVal.
Proof.
  apply (inj_countable'
           (fun v => match v with PStr s => inl s | PBool b => inr b end)
           (fun x => match x with inl s => PStr s | inr b => PBool b end)).
  by intros [].
Defined.

Module HTTPRequest.

Record t := make {
  method : HTTPMethod;
  path : string;
  headers : gmap string string;
  body : option string;
  (* the items of the dict, in insertion order *)
  query_params : list (string * string);
  context : gmap string PyVal;
  timestamp : Z;
  request_id : option string
}.

(** Case-insensitive header lookup: [self.headers.get(name.lower(), default)] *)
Definition get_header (self : t) (name : string) (default : option string) : option string :=
  match headers self !! PyStr.lower name with
  | Some v => Some v
  | None => default
  end.

(** [self.headers[name.lower()] = value] *)
Definition set_header (self : t) (name val : string) : t :=
  {| method := method self; path := path self;
     headers := <[PyStr.lower name := val]> (headers self);
     body := body self; query_params := query_params self;
     context := context self; timestamp := timestamp self;
     request_id := request_id self |}.

(** [self.context[key] = v] *)
Definition set_context (self : t) (key : string) (v : PyVal) : t :=
  {| method := method self; path := path self; headers := headers self;
     body := body self; query_params := query_params self;
     context := <[key := v]> (context self); timestamp := timestamp self;
     request_id := request_id self |}.

End HTTPRequest.

Module HTTPResponse.

Record t := make {
  status_code : Z;
  body : string;
  headers : gmap string string;
  (* milliseconds *)
  execution_time_ms : option Qc
}.

(** [HTTPResponse(status_code=..., body=...)]: the dataclass defaults. *)
Definition new (status : Z) (b : string) : t :=
  {| status_code := status; body := b; headers := ∅; execution_time_ms := None |}.

Definition set_header (self : t) (name val : string) : t :=
  {| status_code := status_code self; body := body self;
     headers := <[PyStr.lower name := val]> (headers self);
     execution_time_ms := execution_time_ms self |}.

Definition set_execution_time_ms (self : t) (ms : Qc) : t :=
  {| status_code := status_code self; body := body self;
     headers := headers self; execution_time_ms := Some ms |}.

Definition is_success (self : t) : bool :=
  ((200 <=? status_code self) && (status_code self <? 300))%Z.

Definition is_error (self : t) : bool := (400 <=? status_code self)%Z.

#[global] Instance inhabited : Inhabited t := populate (new 0 "").

End HTTPResponse.

(** *** The world a call runs in *)

(** What a unit writes to standard output. *)
Inductive Event :=
| EvAPIProcessing (m : HTTPMethod) (p : string)
| EvLogIncoming (request_id : option string) (m : HTTPMethod) (p : string)
| EvLogResponse (status : Z) (elapsed_ms : Qc)
| EvLogError (status : Z) (message : string) (elapsed_ms : Qc)
| EvAuthChecking
| EvAuthNoHeader
| EvAuthInvalid (token : string)
| EvAuthOk (user_id : string)
| EvRateChecking (user_id : PyVal)
| EvRateExceeded (recent max_requests : Z)
| EvRateAllowed (used max_requests : Z)
| EvCacheBypass
| EvCacheHit (key : string) (expires_in_s : Z)
| EvCacheExpired (key : string)
| EvCacheMiss (key : string)
| EvCacheStored (ttl_seconds : Z)
| EvCompressing (size : nat)
| EvCompressed (original compressed : Z)
| EvCompressSkip
| EvMetricsRecorded (latency_ms : Qc) (status : Z) (successful total : Z)
| EvCORSPreflight
| EvCORSAdded (origin : string).

(** A location of the heap of response objects. *)
Definition loc := nat.

Record World := mkWorld {
  heap : gmap loc HTTPResponse.t;
  stdout : list Event;
  ticks : nat
}.

(** [print(...)] *)
Definition print (e : Event) (w : World) : World :=
  {| heap := heap w; stdout := stdout w ++ [e]; ticks := ticks w |}.

(** Creating a response object: a location not in use. *)
Definition alloc (r : HTTPResponse.t) (w : World) : loc * World :=
  let l := fresh (dom (heap w)) in
  (l, {| heap := <[l := r]> (heap w); stdout := stdout w; ticks := ticks w |}).

(** Reading a response object through a reference. *)
Definition deref (w : World) (l : loc) : HTTPResponse.t := heap w !!! l.

(** In-place update of a response object. *)
Definition mutate (l : loc) (f : HTTPResponse.t -> HTTPResponse.t) (w : World) : World :=
  {| heap := alter f l (heap w); stdout := stdout w; ticks := ticks w |}.

(** What is outside the repository: the clock and library functions. *)
Class Runtime := {
  (* the clock reading at each tick, in microseconds *)
  clock : nat -> Z;
  (* [hashlib.md5(s.encode()).hexdigest()] *)
  md5_hexdigest : string -> string;
  (* [str(d)] of a dict of strings, from its items *)
  dict_repr : list (string * string) -> string;
  (* [json.loads(s)]; [None] when it raises *)
  json_loads : string -> option Json.t;
  (* [int(n * 0.3)] in double precision *)
  int_times_0_3 : nat -> Z
}.

(** [time.time()], [datetime.now()] *)
Definition now `{Runtime} (w : World) : Z * World :=
  (clock (ticks w), {| heap := heap w; stdout := stdout w; ticks := S (ticks w) |}).

(** [timedelta(seconds=n)], in microseconds. *)
Definition seconds (n : Z) : Z := n * 1000000.

(** A difference of two clock readings, in milliseconds. *)
Definition elapsed_ms (t0 t1 : Z) : Qc := Q2Qc (Qmake (t1 - t0) 1000).

(** How a call of [handle] ends. *)
Inductive Outcome :=
| Returned (response : loc)
| RaisedHTTP (status_code : Z) (message : string)   (* an [HTTPException] *)
| RaisedOther (exception : string).                 (* any other exception *)

(** *** The component interface *)

Class HTTPHandler (H : Type) := handle : H -> HTTPRequest.t -> World -> Outcome * H * World.

(** Returning a newly created response. *)
Definition respond {S : Type} (status : Z) (body : string) (self : S) (w : World)
  : Outcome * S * World :=
  let '(l, w) := alloc (HTTPResponse.new status body) w in
  (Returned l, self, w).

(** [json.dumps({"error": msg})] *)
Definition error_body (msg : string) : string :=
  Json.dumps (Json.Obj [("error", Json.Str msg)]).

(** *** The concrete component: [APIHandler] *)

Record DataStore := {
  users : list Json.t;
  products : list Json.t
}.

Record APIHandler := {
  endpoint_name : string;
  data_store : DataStore
}.

Definition new_APIHandler (name : string) : APIHandler :=
  {| endpoint_name := name;
     data_store :=
       {| users :=
            [ Json.Obj [("id", Json.Int 1); ("name", Json.Str "Alice");
                        ("email", Json.Str "alice@example.com")];
              Json.Obj [("id", Json.Int 2); ("name", Json.Str "Bob");
                        ("email", Json.Str "bob@example.com")] ];
          products :=
            [ Json.Obj [("id", Json.Int 1); ("name", Json.Str "Laptop");
                        ("price", Json.Float "999.99")];
              Json.Obj [("id", Json.Int 2); ("name", Json.Str "Mouse");
                        ("price", Json.Float "29.99")] ] |} |}.

Section Component.
Context {RT : Runtime}.

Definition _handle_users (self : APIHandler) (request : HTTPRequest.t) (w : World)
  : Outcome * APIHandler * World :=
  match HTTPRequest.method request with
  | GET =>
      respond 200 (Json.dumps (Json.Obj [("users", Json.Arr (users (data_store self)))])) self w
  | POST =>
      let parsed :=
        match HTTPRequest.body request with
        | Some b => if PyStr.truthy (Some b) then json_loads b else Some (Json.Obj [])
        | None => Some (Json.Obj [])
        end in
      match parsed with
      | None => (RaisedOther "JSONDecodeError", self, w)
      | Some (Json.Obj fields) =>
          let new_user :=
            Json.Obj (Json.set_item "id"
                        (Json.Int (Z.of_nat (List.length (users (data_store self))) + 1)) fields) in
          let self' :=
            {| endpoint_name := endpoint_name self;
               data_store := {| users := users (data_store self) ++ [new_user];
                                products := products (data_store self) |} |} in
          respond 201 (Json.dumps (Json.Obj [("user", new_user)])) self' w
      | Some _ => (RaisedOther "TypeError", self, w)
      end
  | _ => respond 405 (error_body "Method not allowed") self w
  end.

Definition _handle_products (self : APIHandler) (request : HTTPRequest.t) (w : World)
  : Outcome * APIHandler * World :=
  match HTTPRequest.method request with
  | GET =>
      respond 200
        (Json.dumps (Json.Obj [("products", Json.Arr (products (data_store self)))])) self w
  | _ => respond 405 (error_body "Method not allowed") self w
  end.

Definition APIHandler_handle (self : APIHandler) (request : HTTPRequest.t) (w : World)
  : Outcome * APIHandler * World :=
  let w := print (EvAPIProcessing (HTTPRequest.method request) (HTTPRequest.path request)) w in
  if PyStr.startswith (HTTPRequest.path request) "/users" then _handle_users self request w
  else if PyStr.startswith (HTTPRequest.path request) "/products"
       then _handle_products self request w
       else respond 404 (error_body "Endpoint not found") self w.

#[global] Instance APIHandler_handler : HTTPHandler APIHandler := APIHandler_handle.

End Component.

(** *** The decorators *)

Record EndpointStats := {
  count : Z;
  avg_latency_ms : Qc
}.

(** [MetricsMiddleware.metrics] *)
Record Metrics := {
  total_requests : Z;
  successful_requests : Z;
  failed_requests : Z;
  total_latency_ms : Qc;
  status_codes : gmap Z Z;                     (* defaultdict(int) *)
  endpoint_stats : gmap string EndpointStats   (* defaultdict of fresh stats *)
}.

(** The fields each concrete decorator class adds to the base decorator. *)
Inductive Middleware :=
| Logging
| Authentication (valid_tokens : gset string)
| RateLimiting (max_requests window_seconds : Z)
               (request_log : gmap PyVal (list (Z * Z)))
| Caching (ttl_seconds : Z) (cache : gmap string (loc * Z))
| Compression
| MetricsOf (metrics : Metrics)
| CORS (allowed_origins : list string).

(** The base decorator: the wrapped handler, and what the subclass adds. *)
Record MiddlewareDecorator (H : Type) := Decorate {
  middleware : Middleware;
  _handler : H
}.
Arguments Decorate {H} _ _.
Arguments middleware {H} _.
Arguments _handler {H} _.

(** [self.name = self.__class__.__name__] *)
Definition name {H : Type} (self : MiddlewareDecorator H) : string :=
  match middleware self with
  | Logging => "LoggingMiddleware"
  | Authentication _ => "AuthenticationMiddleware"
  | RateLimiting _ _ _ => "RateLimitingMiddleware"
  | Caching _ _ => "CachingMiddleware"
  | Compression => "CompressionMiddleware"
  | MetricsOf _ => "MetricsMiddleware"
  | CORS _ => "CORSMiddleware"
  end.

Section Decorators.
Context {RT : Runtime} {H : Type} {HH : HTTPHandler H}.

(** [LoggingMiddleware.handle] *)
Definition LoggingMiddleware_handle (h : H) (request : HTTPRequest.t) (w : World)
  : Outcome * MiddlewareDecorator H * World :=
  let w := print (EvLogIncoming (HTTPRequest.request_id request)
                    (HTTPRequest.method request) (HTTPRequest.path request)) w in
  let '(start_time, w) := now w in
  let '(o, h, w) := handle h request w in
  match o with
  | Returned response =>
      let '(t, w) := now w in
      let elapsed := elapsed_ms start_time t in
      let w := print (EvLogResponse (HTTPResponse.status_code (deref w response)) elapsed) w in
      let w := mutate response (fun r => HTTPResponse.set_execution_time_ms r elapsed) w in
      (Returned response, Decorate Logging h, w)
  | RaisedHTTP status message =>
      let '(t, w) := now w in
      let w := print (EvLogError status message (elapsed_ms start_time t)) w in
      (RaisedHTTP status message, Decorate Logging h, w)
  | RaisedOther e => (RaisedOther e, Decorate Logging h, w)
  end.

(** [AuthenticationMiddleware.handle] *)
Definition AuthenticationMiddleware_handle (valid_tokens : gset string)
  (h : H) (request : HTTPRequest.t) (w : World)
  : Outcome * MiddlewareDecorator H * World :=
  let self := Decorate (Authentication valid_tokens) in
  let w := print EvAuthChecking w in
  let auth_header := HTTPRequest.get_header request "authorization" None in
  if negb (PyStr.truthy auth_header) then
    let w := print EvAuthNoHeader w in
    respond 401 (error_body "Authentication required") (self h) w
  else
    let token := PyStr.replace (default "" auth_header) "Bearer " "" in
    if negb (bool_decide (token ∈ valid_tokens)) then
      let w := print (EvAuthInvalid token) w in
      respond 401 (error_body "Invalid authentication token") (self h) w
    else
      let user_id := if String.eqb token "secret-token-123" then "user_123" else "admin_456" in
      let request := HTTPRequest.set_context request "user_id" (PStr user_id) in
      let request :=
        HTTPRequest.set_context request "is_admin" (PBool (PyStr.startswith token "admin")) in
      let w := print (EvAuthOk user_id) w in
      let '(o, h, w) := handle h request w in
      (o, self h, w).

(** [sum(count for _, count in entries)] *)
Definition recent_count (entries : list (Z * Z)) : Z :=
  foldr (fun e acc => snd e + acc) 0 entries.

(** [RateLimitingMiddleware.handle].  [now - timedelta(...)] is the
    difference of integers; in the source it raises [OverflowError] when
    the result is not a datetime (see [within_datetimes]). *)
Definition RateLimitingMiddleware_handle (max_requests window_seconds : Z)
  (request_log : gmap PyVal (list (Z * Z)))
  (h : H) (request : HTTPRequest.t) (w : World)
  : Outcome * MiddlewareDecorator H * World :=
  let user_id := default (PStr "anonymous") (HTTPRequest.context request !! "user_id") in
  let w := print (EvRateChecking user_id) w in
  let '(now_, w) := now w in
  let cutoff := now_ - seconds window_seconds in
  let entries :=
    filter (fun e => cutoff < fst e) (default [] (request_log !! user_id)) in
  let request_log := <[user_id := entries]> request_log in
  let recent_requests := recent_count entries in
  if max_requests <=? recent_requests then
    let w := print (EvRateExceeded recent_requests max_requests) w in
    respond 429
      (Json.dumps (Json.Obj [("error", Json.Str "Rate limit exceeded");
                             ("retry_after", Json.Int window_seconds)]))
      (Decorate (RateLimiting max_requests window_seconds request_log) h) w
  else
    let request_log := <[user_id := entries ++ [(now_, 1)]]> request_log in
    let w := print (EvRateAllowed (recent_requests + 1) max_requests) w in
    let '(o, h, w) := handle h request w in
    (o, Decorate (RateLimiting max_requests window_seconds request_log) h, w).

(** [CachingMiddleware._generate_cache_key] *)
Definition _generate_cache_key (request : HTTPRequest.t) : string :=
  md5_hexdigest
    (value (HTTPRequest.method request) +:+ ":" +:+ HTTPRequest.path request +:+ ":"
     +:+ dict_repr (HTTPRequest.query_params request)).

(** [(expiry - now).seconds] *)
Definition timedelta_seconds (d : Z) : Z := (d `div` 1000000) `mod` 86400.

(** The part of [CachingMiddleware.handle] from the cache miss on: delegate,
    and store the response when it is a success.  [now + timedelta(...)] is
    the sum of integers; in the source it raises [OverflowError] when the
    result is not a datetime (see [within_datetimes]). *)
Definition caching_fetch (ttl_seconds : Z) (cache : gmap string (loc * Z))
  (cache_key : string) (now_ : Z) (h : H) (request : HTTPRequest.t) (w : World)
  : Outcome * MiddlewareDecorator H * World :=
  let w := print (EvCacheMiss cache_key) w in
  let '(o, h, w) := handle h request w in
  match o with
  | Returned response =>
      if HTTPResponse.is_success (deref w response) then
        let expiry := now_ + seconds ttl_seconds in
        let cache := <[cache_key := (response, expiry)]> cache in
        let w := print (EvCacheStored ttl_seconds) w in
        let w := mutate response (fun r => HTTPResponse.set_header r "x-cache" "MISS") w in
        (Returned response, Decorate (Caching ttl_seconds cache) h, w)
      else (Returned response, Decorate (Caching ttl_seconds cache) h, w)
  | _ => (o, Decorate (Caching ttl_seconds cache) h, w)
  end.

(** [CachingMiddleware.handle] *)
Definition CachingMiddleware_handle (ttl_seconds : Z) (cache : gmap string (loc * Z))
  (h : H) (request : HTTPRequest.t) (w : World)
  : Outcome * MiddlewareDecorator H * World :=
  if negb (bool_decide (HTTPRequest.method request = GET)) then
    let w := print EvCacheBypass w in
    let '(o, h, w) := handle h request w in
    (o, Decorate (Caching ttl_seconds cache) h, w)
  else
    let cache_key := _generate_cache_key request in
    let '(now_, w) := now w in
    match cache !! cache_key with
    | Some (cached_response, expiry) =>
        if now_ <? expiry then
          let w := print (EvCacheHit cache_key (timedelta_seconds (expiry - now_))) w in
          let w := mutate cached_response
                     (fun r => HTTPResponse.set_header r "x-cache" "HIT") w in
          (Returned cached_response, Decorate (Caching ttl_seconds cache) h, w)
        else
          let w := print (EvCacheExpired cache_key) w in
          let cache := delete cache_key cache in
          caching_fetch ttl_seconds cache cache_key now_ h request w
    | None => caching_fetch ttl_seconds cache cache_key now_ h request w
    end.

(** [CompressionMiddleware.handle] *)
Definition CompressionMiddleware_handle (h : H) (request : HTTPRequest.t) (w : World)
  : Outcome * MiddlewareDecorator H * World :=
  let accept_encoding :=
    default "" (HTTPRequest.get_header request "accept-encoding" (Some "")) in
  let supports_gzip := PyStr.contains "gzip" (PyStr.lower accept_encoding) in
  let '(o, h, w) := handle h request w in
  match o with
  | Returned response =>
      let original_size := String.length (HTTPResponse.body (deref w response)) in
      if supports_gzip && Nat.ltb 100 original_size then
        let w := print (EvCompressing original_size) w in
        let compressed_size := int_times_0_3 original_size in
        let w := mutate response (fun r =>
                   HTTPResponse.set_header r "content-encoding" "gzip") w in
        let w := mutate response (fun r =>
                   HTTPResponse.set_header r "x-original-size" (pretty original_size)) w in
        let w := mutate response (fun r =>
                   HTTPResponse.set_header r "x-compressed-size" (pretty compressed_size)) w in
        let w := print (EvCompressed (Z.of_nat original_size) compressed_size) w in
        (Returned response, Decorate Compression h, w)
      else
        let w := print EvCompressSkip w in
        (Returned response, Decorate Compression h, w)
  | _ => (o, Decorate Compression h, w)
  end.

(** [d[k] += 1] on a [defaultdict(int)] *)
Definition incr (k : Z) (d : gmap Z Z) : gmap Z Z :=
  <[k := default 0 (d !! k) + 1]> d.

(** The per-endpoint running average of [MetricsMiddleware.handle]. *)
Definition record_endpoint (endpoint : string) (latency_ms : Qc)
  (stats : gmap string EndpointStats) : gmap string EndpointStats :=
  let ep_stats := default {| count := 0; avg_latency_ms := 0%Qc |} (stats !! endpoint) in
  let n := count ep_stats + 1 in
  <[endpoint :=
      {| count := n;
         avg_latency_ms :=
           ((avg_latency_ms ep_stats * Q2Qc (inject_Z (n - 1)) + latency_ms)
            / Q2Qc (inject_Z n))%Qc |}]> stats.

(** The updates of the metrics when the wrapped handler returns. *)
Definition record_response (m : Metrics) (request : HTTPRequest.t)
  (response : HTTPResponse.t) (latency_ms : Qc) : Metrics :=
  let success := HTTPResponse.is_success response in
  {| total_requests := total_requests m + 1;
     successful_requests :=
       if success then successful_requests m + 1 else successful_requests m;
     failed_requests := if success then failed_requests m else failed_requests m + 1;
     total_latency_ms := (total_latency_ms m + latency_ms)%Qc;
     status_codes := incr (HTTPResponse.status_code response) (status_codes m);
     endpoint_stats :=
       record_endpoint
         (value (HTTPRequest.method request) +:+ " " +:+ HTTPRequest.path request)
         latency_ms (endpoint_stats m) |}.

(** The updates of the metrics when the wrapped handler raises an
    [HTTPException]. *)
Definition record_exception (m : Metrics) (status : Z) (latency_ms : Qc) : Metrics :=
  {| total_requests := total_requests m + 1;
     successful_requests := successful_requests m;
     failed_requests := failed_requests m + 1;
     total_latency_ms := (total_latency_ms m + latency_ms)%Qc;
     status_codes := incr status (status_codes m);
     endpoint_stats := endpoint_stats m |}.

(** [MetricsMiddleware.handle] *)
Definition MetricsMiddleware_handle (metrics : Metrics)
  (h : H) (request : HTTPRequest.t) (w : World)
  : Outcome * MiddlewareDecorator H * World :=
  let '(start_time, w) := now w in
  let '(o, h, w) := handle h request w in
  match o with
  | Returned response =>
      let '(t, w) := now w in
      let latency_ms := elapsed_ms start_time t in
      let metrics := record_response metrics request (deref w response) latency_ms in
      let w := print (EvMetricsRecorded latency_ms
                        (HTTPResponse.status_code (deref w response))
                        (successful_requests metrics) (total_requests metrics)) w in
      (Returned response, Decorate (MetricsOf metrics) h, w)
  | RaisedHTTP status message =>
      let '(t, w) := now w in
      let metrics := record_exception metrics status (elapsed_ms start_time t) in
      (RaisedHTTP status message, Decorate (MetricsOf metrics) h, w)
  | RaisedOther e => (RaisedOther e, Decorate (MetricsOf metrics) h, w)
  end.

(** The CORS headers [CORSMiddleware.handle] adds to a response. *)
Definition add_cors_headers (allowed_origins : list string)
  (request : HTTPRequest.t) (response : loc) (w : World) : World :=
  let origin := default "*" (HTTPRequest.get_header request "origin" (Some "*")) in
  if bool_decide (origin ∈ allowed_origins) || bool_decide ("*" ∈ allowed_origins) then
    let w := mutate response (fun r =>
               HTTPResponse.set_header r "access-control-allow-origin" origin) w in
    let w := mutate response (fun r =>
               HTTPResponse.set_header r "access-control-allow-methods"
                 "GET, POST, PUT, DELETE") w in
    let w := mutate response (fun r =>
               HTTPResponse.set_header r "access-control-allow-headers"
                 "Content-Type, Authorization") w in
    let w := mutate response (fun r =>
               HTTPResponse.set_header r "access-control-max-age" "3600") w in
    print (EvCORSAdded origin) w
  else w.

(** [CORSMiddleware.handle] *)
Definition CORSMiddleware_handle (allowed_origins : list string)
  (h : H) (request : HTTPRequest.t) (w : World)
  : Outcome * MiddlewareDecorator H * World :=
  let self := Decorate (CORS allowed_origins) in
  if bool_decide (HTTPRequest.method request = GET)
     && String.eqb (HTTPRequest.path request) "OPTIONS" then
    let w := print EvCORSPreflight w in
    let '(response, w) := alloc (HTTPResponse.new 204 "") w in
    (Returned response, self h, add_cors_headers allowed_origins request response w)
  else
    let '(o, h, w) := handle h request w in
    match o with
    | Returned response =>
        (Returned response, self h, add_cors_headers allowed_origins request response w)
    | _ => (o, self h, w)
    end.

(** [handle] of a decorator object: the method of its class. *)
Definition MiddlewareDecorator_handle (self : MiddlewareDecorator H)
  (request : HTTPRequest.t) (w : World) : Outcome * MiddlewareDecorator H * World :=
  match middleware self with
  | Logging => LoggingMiddleware_handle (_handler self) request w
  | Authentication valid_tokens =>
      AuthenticationMiddleware_handle valid_tokens (_handler self) request w
  | RateLimiting max_requests window_seconds request_log =>
      RateLimitingMiddleware_handle max_requests window_seconds request_log
        (_handler self) request w
  | Caching ttl_seconds cache =>
      CachingMiddleware_handle ttl_seconds cache (_handler self) request w
  | Compression => CompressionMiddleware_handle (_handler self) request w
  | MetricsOf metrics => MetricsMiddleware_handle metrics (_handler self) request w
  | CORS allowed_origins => CORSMiddleware_handle allowed_origins (_handler self) request w
  end.

End Decorators.

#[global] Instance MiddlewareDecorator_handler {RT : Runtime} {H : Type} {HH : HTTPHandler H}
  : HTTPHandler (MiddlewareDecorator H) := MiddlewareDecorator_handle.

(** *** Construction *)

(** How a constructor call ends: with the object, or with a raised fault. *)
Inductive Constructed (A : Type) :=
| Built (obj : A)
| ConfigurationError (message : string).
Arguments Built {A} _.
Arguments ConfigurationError {A} _.

(** The metrics of a new [MetricsMiddleware]. *)
Definition fresh_metrics : Metrics :=
  {| total_requests := 0; successful_requests := 0; failed_requests := 0;
     total_latency_ms := 0%Qc; status_codes := ∅; endpoint_stats := ∅ |}.

Section Constructors.
Context {H : Type}.

Definition LoggingMiddleware_init (handler : H) : Constructed (MiddlewareDecorator H) :=
  Built (Decorate Logging handler).

(** [valid_tokens or {"secret-token-123", "admin-token-456"}] *)
Definition AuthenticationMiddleware_init (handler : H) (valid_tokens : option (gset string))
  : Constructed (MiddlewareDecorator H) :=
  let tokens :=
    match valid_tokens with
    | Some s => if bool_decide (s = ∅) then {["secret-token-123"; "admin-token-456"]} else s
    | None => {["secret-token-123"; "admin-token-456"]}
    end in
  Built (Decorate (Authentication tokens) handler).

Definition RateLimitingMiddleware_init (handler : H) (max_requests window_seconds : Z)
  : Constructed (MiddlewareDecorator H) :=
  Built (Decorate (RateLimiting max_requests window_seconds ∅) handler).

Definition CachingMiddleware_init (handler : H) (ttl_seconds : Z)
  : Constructed (MiddlewareDecorator H) :=
  Built (Decorate (Caching ttl_seconds ∅) handler).

Definition CompressionMiddleware_init (handler : H) : Constructed (MiddlewareDecorator H) :=
  Built (Decorate Compression handler).

Definition MetricsMiddleware_init (handler : H) : Constructed (MiddlewareDecorator H) :=
  Built (Decorate (MetricsOf fresh_metrics) handler).

(** [allowed_origins or ["*"]] *)
Definition CORSMiddleware_init (handler : H) (allowed_origins : option (list string))
  : Constructed (MiddlewareDecorator H) :=
  let origins :=
    match allowed_origins with
    | Some (o :: l) => o :: l
    | _ => ["*"]
    end in
  Built (Decorate (CORS origins) handler).

End Constructors.

(** *** A mock handler that counts its calls

    The handler a decorator wraps, instrumented: [calls] is the number of
    times [handle] was called on it. *)

Record Counting (H : Type) := Count {
  calls : nat;
  counted : H
}.
Arguments Count {H} _ _.
Arguments calls {H} _.
Arguments counted {H} _.

#[global] Instance Counting_handler {H : Type} {HH : HTTPHandler H} : HTTPHandler (Counting H) :=
  fun self request w =>
    let '(o, h, w) := handle (counted self) request w in
    (o, Count (S (calls self)) h, w).

(** *** The two phases of a unit

    The specification describes a unit as: pre-delegation logic, then
    either a response of its own (short-circuit) or the call of the wrapped
    handler followed by post-delegation logic on what it gives.  [pre_logic]
    is that description, unit by unit; [handle_pre_post] below shows that
    [handle], written after the source, is the same function. *)

Inductive Phase :=
| ShortCircuit (response : loc) (self : Middleware) (w : World)
| Delegate (request : HTTPRequest.t) (w : World)
           (post_logic : Outcome -> World -> Outcome * Middleware * World).

Section Phases.
Context {RT : Runtime}.

Definition pre_logic (self : Middleware) (request : HTTPRequest.t) (w : World) : Phase :=
  match self with
  | Logging =>
      let w := print (EvLogIncoming (HTTPRequest.request_id request)
                        (HTTPRequest.method request) (HTTPRequest.path request)) w in
      let '(start_time, w) := now w in
      Delegate request w (fun o w =>
        match o with
        | Returned response =>
            let '(t, w) := now w in
            let elapsed := elapsed_ms start_time t in
            let w := print (EvLogResponse
                              (HTTPResponse.status_code (deref w response)) elapsed) w in
            (o, Logging,
             mutate response (fun r => HTTPResponse.set_execution_time_ms r elapsed) w)
        | RaisedHTTP status message =>
            let '(t, w) := now w in
            (o, Logging, print (EvLogError status message (elapsed_ms start_time t)) w)
        | RaisedOther _ => (o, Logging, w)
        end)
  | Authentication valid_tokens =>
      let w := print EvAuthChecking w in
      let auth_header := HTTPRequest.get_header request "authorization" None in
      let token := PyStr.replace (default "" auth_header) "Bearer " "" in
      if negb (PyStr.truthy auth_header) then
        let '(l, w) := alloc (HTTPResponse.new 401 (error_body "Authentication required"))
                         (print EvAuthNoHeader w) in
        ShortCircuit l self w
      else if negb (bool_decide (token ∈ valid_tokens)) then
        let '(l, w) := alloc (HTTPResponse.new 401 (error_body "Invalid authentication token"))
                         (print (EvAuthInvalid token) w) in
        ShortCircuit l self w
      else
        let user_id :=
          if String.eqb token "secret-token-123" then "user_123" else "admin_456" in
        Delegate
          (HTTPRequest.set_context
             (HTTPRequest.set_context request "user_id" (PStr user_id))
             "is_admin" (PBool (PyStr.startswith token "admin")))
          (print (EvAuthOk user_id) w)
          (fun o w => (o, self, w))
  | RateLimiting max_requests window_seconds request_log =>
      let user_id := default (PStr "anonymous") (HTTPRequest.context request !! "user_id") in
      let '(now_, w) := now (print (EvRateChecking user_id) w) in
      let entries :=
        filter (fun e => now_ - seconds window_seconds < fst e)
          (default [] (request_log !! user_id)) in
      let recent_requests := recent_count entries in
      if max_requests <=? recent_requests then
        let '(l, w) :=
          alloc (HTTPResponse.new 429
                   (Json.dumps (Json.Obj [("error", Json.Str "Rate limit exceeded");
                                          ("retry_after", Json.Int window_seconds)])))
            (print (EvRateExceeded recent_requests max_requests) w) in
        ShortCircuit l
          (RateLimiting max_requests window_seconds (<[user_id := entries]> request_log)) w
      else
        Delegate request (print (EvRateAllowed (recent_requests + 1) max_requests) w)
          (fun o w =>
             (o, RateLimiting max_requests window_seconds
                   (<[user_id := entries ++ [(now_, 1)]]>
                      (<[user_id := entries]> request_log)), w))
  | Caching ttl_seconds cache =>
      if negb (bool_decide (HTTPRequest.method request = GET)) then
        Delegate request (print EvCacheBypass w) (fun o w => (o, self, w))
      else
        let cache_key := _generate_cache_key request in
        let '(now_, w) := now w in
        let fresh_entry :=
          match cache !! cache_key with
          | Some (cached_response, expiry) =>
              if now_ <? expiry then Some (cached_response, expiry) else None
          | None => None
          end in
        match fresh_entry with
        | Some (cached_response, expiry) =>
            ShortCircuit cached_response self
              (mutate cached_response (fun r => HTTPResponse.set_header r "x-cache" "HIT")
                 (print (EvCacheHit cache_key (timedelta_seconds (expiry - now_))) w))
        | None =>
            (* absent, or expired and evicted *)
            let '(cache, w) :=
              match cache !! cache_key with
              | Some _ => (delete cache_key cache, print (EvCacheExpired cache_key) w)
              | None => (cache, w)
              end in
            Delegate request (print (EvCacheMiss cache_key) w) (fun o w =>
              match o with
              | Returned response =>
                  if HTTPResponse.is_success (deref w response) then
                    (o, Caching ttl_seconds
                          (<[cache_key := (response, now_ + seconds ttl_seconds)]> cache),
                     mutate response (fun r => HTTPResponse.set_header r "x-cache" "MISS")
                       (print (EvCacheStored ttl_seconds) w))
                  else (o, Caching ttl_seconds cache, w)
              | _ => (o, Caching ttl_seconds cache, w)
              end)
        end
  | Compression =>
      let supports_gzip :=
        PyStr.contains "gzip"
          (PyStr.lower
             (default "" (HTTPRequest.get_header request "accept-encoding" (Some "")))) in
      Delegate request w (fun o w =>
        match o with
        | Returned response =>
            let original_size := String.length (HTTPResponse.body (deref w response)) in
            if supports_gzip && Nat.ltb 100 original_size then
              let compressed_size := int_times_0_3 original_size in
              let w := print (EvCompressing original_size) w in
              let w := mutate response (fun r =>
                         HTTPResponse.set_header r "content-encoding" "gzip") w in
              let w := mutate response (fun r =>
                         HTTPResponse.set_header r "x-original-size"
                           (pretty original_size)) w in
              let w := mutate response (fun r =>
                         HTTPResponse.set_header r "x-compressed-size"
                           (pretty compressed_size)) w in
              (o, Compression,
               print (EvCompressed (Z.of_nat original_size) compressed_size) w)
            else (o, Compression, print EvCompressSkip w)
        | _ => (o, Compression, w)
        end)
  | MetricsOf metrics =>
      let '(start_time, w) := now w in
      Delegate request w (fun o w =>
        match o with
        | Returned response =>
            let '(t, w) := now w in
            let latency_ms := elapsed_ms start_time t in
            let metrics := record_response metrics request (deref w response) latency_ms in
            (o, MetricsOf metrics,
             print (EvMetricsRecorded latency_ms
                      (HTTPResponse.status_code (deref w response))
                      (successful_requests metrics) (total_requests metrics)) w)
        | RaisedHTTP status message =>
            let '(t, w) := now w in
            (o, MetricsOf (record_exception metrics status (elapsed_ms start_time t)), w)
        | RaisedOther _ => (o, MetricsOf metrics, w)
        end)
  | CORS allowed_origins =>
      if bool_decide (HTTPRequest.method request = GET)
         && String.eqb (HTTPRequest.path request) "OPTIONS" then
        let '(response, w) := alloc (HTTPResponse.new 204 "") (print EvCORSPreflight w) in
        ShortCircuit response self (add_cors_headers allowed_origins request response w)
      else
        Delegate request w (fun o w =>
          match o with
          | Returned response =>
              (o, self, add_cors_headers allowed_origins request response w)
          | _ => (o, self, w)
          end)
  end.

(** A unit as the specification describes it. *)
Definition run_phases {H : Type} {HH : HTTPHandler H} (self : MiddlewareDecorator H)
  (request : HTTPRequest.t) (w : World) : Outcome * MiddlewareDecorator H * World :=
  match pre_logic (middleware self) request w with
  | ShortCircuit response self' w => (Returned response, Decorate self' (_handler self), w)
  | Delegate request w post_logic =>
      let '(o, h, w) := handle (_handler self) request w in
      let '(o, self', w) := post_logic o w in
      (o, Decorate self' h, w)
  end.

End Phases.

(** *** The notions the properties are stated with *)

Section Notions.
Context {RT : Runtime}.

(** The credential of a request, as [AuthenticationMiddleware.handle] reads
    it: the [authorization] header without its [Bearer ] prefix; [None]
    when the header is missing or empty. *)
Definition credential (request : HTTPRequest.t) : option string :=
  let auth_header := HTTPRequest.get_header request "authorization" None in
  if PyStr.truthy auth_header
  then Some (PyStr.replace (default "" auth_header) "Bearer " "")
  else None.

Definition rejected (valid_tokens : gset string) (request : HTTPRequest.t) : Prop :=
  match credential request with
  | None => True
  | Some token => token ∉ valid_tokens
  end.

(** The cache table after the miss path: the response is stored when it
    is a success, and only then. *)
Definition cache_after (ttl_seconds : Z) (cache : gmap string (loc * Z))
  (cache_key : string) (now_ : Z) (o : Outcome) (w : World) : gmap string (loc * Z) :=
  match o with
  | Returned response =>
      if HTTPResponse.is_success (deref w response)
      then <[cache_key := (response, now_ + seconds ttl_seconds)]> cache
      else cache
  | _ => cache
  end.

(** The world in which the wrapped handler is called on the miss path. *)
Definition world_at_fetch (cache : gmap string (loc * Z)) (request : HTTPRequest.t)
  (w : World) : World :=
  let cache_key := _generate_cache_key request in
  print (EvCacheMiss cache_key)
    (match cache !! cache_key with
     | Some _ => print (EvCacheExpired cache_key) (now w).2
     | None => (now w).2
     end).

(** No usable entry: the key is absent, or its entry has expired. *)
Definition stale (cache : gmap string (loc * Z)) (cache_key : string) (now_ : Z) : Prop :=
  match cache !! cache_key with
  | Some (_, expiry) => expiry <= now_
  | None => True
  end.

(** The identity the rate limiter files a request under. *)
Definition identity (request : HTTPRequest.t) : PyVal :=
  default (PStr "anonymous") (HTTPRequest.context request !! "user_id").

(** The status the caller reads off what a call gives. *)
Definition status_of (o : Outcome) (w : World) : option Z :=
  match o with
  | Returned l => Some (HTTPResponse.status_code (deref w l))
  | _ => None
  end.

(** Sequential calls, as in the loop of the demonstration: each status is
    read when its call returns. *)
Fixpoint serve {H : Type} {HH : HTTPHandler H} (h : H) (requests : list HTTPRequest.t)
  (w : World) : list (option Z) * H * World :=
  match requests with
  | [] => ([], h, w)
  | request :: rest =>
      let '(o, h, w) := handle h request w in
      let status := status_of o w in
      let '(statuses, h, w) := serve h rest w in
      (status :: statuses, h, w)
  end.

(** The log of an identity holds [k] requests, each stamped with a reading
    of the clock. *)
Definition logged (k : nat) (request_log : gmap PyVal (list (Z * Z))) (uid : PyVal) : Prop :=
  List.length (default [] (request_log !! uid)) = k
  /\ Forall (fun e => (exists i, e.1 = clock i) /\ e.2 = 1) (default [] (request_log !! uid)).

(** The wrapped handler answers each of the requests with a 200 response,
    in whatever state it is called. *)
Definition answers_200 {H : Type} {HH : HTTPHandler H} (requests : list HTTPRequest.t) : Prop :=
  forall request, request ∈ requests ->
    forall (s : H) (w : World),
      exists (l : loc) (s' : H) (w' : World),
        handle s request w = (Returned l, s', w')
        /\ HTTPResponse.status_code (deref w' l) = 200.

(** Sequential calls, keeping how each one ends. *)
Fixpoint run {H : Type} {HH : HTTPHandler H} (h : H) (requests : list HTTPRequest.t)
  (w : World) : list Outcome * H * World :=
  match requests with
  | [] => ([], h, w)
  | request :: rest =>
      let '(o, h, w) := handle h request w in
      let '(outcomes, h, w) := run h rest w in
      (o :: outcomes, h, w)
  end.

(** A call produces a status code when it returns a response or raises an
    [HTTPException]. *)
Definition produced_status (o : Outcome) : bool :=
  match o with
  | Returned _ | RaisedHTTP _ _ => true
  | RaisedOther _ => false
  end.

Fixpoint status_calls (outcomes : list Outcome) : Z :=
  match outcomes with
  | [] => 0
  | o :: rest => (if produced_status o then 1 else 0) + status_calls rest
  end.

(** The sum of the status-code counters. *)
Definition counted_statuses (m : Metrics) : Z :=
  map_fold (fun _ c acc => c + acc) 0 (status_codes m).

(** The invariant of the metrics, after [k] calls that produced a status
    code. *)
Definition metrics_invariant (k : Z) (m : Metrics) : Prop :=
  total_requests m = successful_requests m + failed_requests m
  /\ counted_statuses m = k
  /\ total_requests m = k.

(** The values of [datetime] run from [datetime.min] to [datetime.max],
    315537897599999999 microseconds later; [now - timedelta(...)] and
    [now + timedelta(...)] raise [OverflowError] when the result is not among
    them.  The units compute with the readings of the clock as integers, so
    they are the source on the calls whose datetime arithmetic stays among
    the datetimes.  [epoch] is what the clock reads at [datetime.min]. *)
Definition datetime_span : Z := 315537897599999999.

Definition is_datetime (epoch t : Z) : Prop := epoch <= t <= epoch + datetime_span.

(** The datetime arithmetic of a unit, on a call it makes when the clock
    reads [now_], stays among the datetimes: [now - timedelta(window)] for
    the rate limiter, [now + timedelta(ttl)] for the caching unit; the other
    units do none. *)
Definition within_datetimes (epoch : Z) (self : Middleware) (now_ : Z) : Prop :=
  is_datetime epoch now_
  /\ match self with
     | RateLimiting _ window_seconds _ => is_datetime epoch (now_ - seconds window_seconds)
     | Caching ttl_seconds _ => is_datetime epoch (now_ + seconds ttl_seconds)
     | _ => True
     end.

(** The fields of the user a POST creates: the parsed body, or none when
    the body is missing or empty. *)
Definition posted_fields (request : HTTPRequest.t) (fields : list (string * Json.t)) : Prop :=
  match HTTPRequest.body request with
  | Some b =>
      if PyStr.truthy (Some b) then json_loads b = Some (Json.Obj fields) else fields = []
  | None => fields = []
  end.

End Notions.

(** A request as the dataclass constructor builds it from the caller's
    [headers] dict: the keys are kept as given. *)
Definition request_with_headers (m : HTTPMethod) (p : string)
  (hs : list (string * string)) : HTTPRequest.t :=
  {| HTTPRequest.method := m; HTTPRequest.path := p;
     HTTPRequest.headers := list_to_map hs;
     HTTPRequest.body := None; HTTPRequest.query_params := [];
     HTTPRequest.context := ∅; HTTPRequest.timestamp := 0;
     HTTPRequest.request_id := None |}.

(** *** The chain on concrete requests *)

(** [str(d)] for a dict of plain strings. *)
Definition demo_dict_repr (items : list (string * string)) : string :=
  "{" +:+ Json.join ", " (map (fun kv => "'" +:+ kv.1 +:+ "': '" +:+ kv.2 +:+ "'") items)
  +:+ "}".

(** A runtime to run the chain with: the clock reads [n * n] milliseconds
    at tick [n]; the digest is a stand-in (the identity). *)
Definition demo_runtime : Runtime :=
  {| clock := fun n => 1000 * Z.of_nat (n * n);
     md5_hexdigest := fun s => s;
     dict_repr := demo_dict_repr;
     json_loads := fun _ => None;
     int_times_0_3 := fun n => (3 * Z.of_nat n) `div` 10 |}.

(** A runtime whose clock stays within 50 seconds: a burst of requests. *)
Definition burst_runtime : Runtime :=
  {| clock := fun n => 1000000 * Z.of_nat (Nat.min n 50);
     md5_hexdigest := fun s => s;
     dict_repr := demo_dict_repr;
     json_loads := fun _ => None;
     int_times_0_3 := fun n => (3 * Z.of_nat n) `div` 10 |}.

(** The world at the start of a run. *)
Definition empty_world : World := {| heap := ∅; stdout := []; ticks := 0 |}.

(** [api_handler = APIHandler("UserAPI")] *)
Definition api_handler : APIHandler := new_APIHandler "UserAPI".

(** An epoch for the runs below: the clock reads 0 some 2025 years after
    [datetime.min]. *)
Definition demo_epoch : Z := - 63900000000000000.

(** The tokens the demonstration passes to the authentication unit. *)
Definition demo_tokens : gset string := {["secret-token-123"; "admin-token-456"]}.

(** [full_handler] of [demonstrate_decorator_pattern] *)
Definition full_handler
  : MiddlewareDecorator (MiddlewareDecorator (MiddlewareDecorator (MiddlewareDecorator
      (MiddlewareDecorator (MiddlewareDecorator (MiddlewareDecorator APIHandler)))))) :=
  Decorate (MetricsOf fresh_metrics)
    (Decorate Logging
       (Decorate (CORS ["https://example.com"; "*"])
          (Decorate (Authentication demo_tokens)
             (Decorate (RateLimiting 5 60 ∅)
                (Decorate (Caching 60 ∅)
                   (Decorate Compression api_handler)))))).

(** A GET request for [/users]. *)
Definition get_users : HTTPRequest.t := request_with_headers GET "/users" [].

(** A world that holds one response, at a given tick of the clock. *)
Definition world_at (tick : nat) : World :=
  {| heap := {[ 0%nat := HTTPResponse.new 200 "[]" ]}; stdout := []; ticks := tick |}.

(** A cache table holding that response for [GET /users], stored at time 0
    with a TTL of 60 s. *)
Definition stored_cache : gmap string (loc * Z) :=
  {[ "GET:/users:{}" := (0%nat, 0 + seconds 60) ]}.

(** A GET request for a path the handler does not serve: a 404. *)
Definition get_missing : HTTPRequest.t := request_with_headers GET "/missing" [].

(** A GET request for [/products]. *)
Definition get_products : HTTPRequest.t := request_with_headers GET "/products" [].

End Middleware.

(** ** The caching proxy ([Proxy Pattern/StockAPI/main.py]) *)

Module StockAPI.

(** The clock, in microseconds, as above. *)
Class Clock := clock : nat -> Z.

Record StockData := {
  ticker : string;
  price : Qc;
  timestamp : Z
}.

Inductive Event :=
| EvNetworkConnecting (ticker : string)
| EvNetworkCharged (ticker : string)
| EvProxyRequest (ticker : string)
| EvCacheHit (age : Z)
| EvCacheExpired (age : Z)
| EvCacheMiss.

Record World := {
  stdout : list Event;
  ticks : nat
}.

Definition print (e : Event) (w : World) : World :=
  {| stdout := stdout w ++ [e]; ticks := ticks w |}.

(** [time.time()] *)
Definition time `{Clock} (w : World) : Z * World :=
  (clock (ticks w), {| stdout := stdout w; ticks := S (ticks w) |}).

(** How a call of [get_stock_price] ends. *)
Inductive Outcome :=
| Fetched (data : StockData)
| Raised (exception : string).

(** The subject interface. *)
Class StockService (S : Type) :=
  get_stock_price : S -> string -> World -> Outcome * S * World.

(** The real subject.  [time.sleep(1.5)] shows in the clock only. *)
Inductive ExternalStockAPI := external_stock_api.

Definition mock_prices (ticker : string) : Qc :=
  if String.eqb ticker "AAPL" then Q2Qc (Qmake 15025 100)
  else if String.eqb ticker "GOOGL" then Q2Qc (Qmake 280050 100)
  else if String.eqb ticker "MSFT" then Q2Qc (Qmake 31010 100)
  else if String.eqb ticker "TSLA" then Q2Qc (Qmake 72000 100)
  else 0%Qc.

#[global] Instance ExternalStockAPI_service `{Clock} : StockService ExternalStockAPI :=
  fun self ticker w =>
    let w := print (EvNetworkConnecting ticker) w in
    let price := mock_prices ticker in
    let w := print (EvNetworkCharged ticker) w in
    let '(t, w) := time w in
    (Fetched {| ticker := ticker; price := price; timestamp := t |}, self, w).

(** The proxy. *)
Record CachingProxy (S : Type) := {
  _real_service : S;
  _cache_ttl : Z;                       (* seconds *)
  _cache : gmap string StockData
}.
Arguments _real_service {S} _.
Arguments _cache_ttl {S} _.
Arguments _cache {S} _.

(** [CachingProxy.__init__]: the arguments are stored as they are. *)
Definition CachingProxy_init {S : Type} (real_service : S) (cache_ttl_seconds : Z)
  : Middleware.Constructed (CachingProxy S) :=
  Middleware.Built
    {| _real_service := real_service; _cache_ttl := cache_ttl_seconds; _cache := ∅ |}.

Section Proxy.
Context {CK : Clock} {S : Type} {SS : StockService S}.

(** Steps 3 and 4 of [CachingProxy.get_stock_price]: delegate and save. *)
Definition refresh (self : CachingProxy S) (ticker : string) (w : World)
  : Outcome * CachingProxy S * World :=
  let '(o, real, w) := get_stock_price (_real_service self) ticker w in
  match o with
  | Fetched fresh_data =>
      (Fetched fresh_data,
       {| _real_service := real; _cache_ttl := _cache_ttl self;
          _cache := <[ticker := fresh_data]> (_cache self) |}, w)
  | Raised e =>
      (Raised e,
       {| _real_service := real; _cache_ttl := _cache_ttl self; _cache := _cache self |}, w)
  end.

(** [CachingProxy.get_stock_price]; a [StockData] object is always truthy. *)
Definition CachingProxy_get_stock_price (self : CachingProxy S) (ticker : string) (w : World)
  : Outcome * CachingProxy S * World :=
  let w := print (EvProxyRequest ticker) w in
  let '(current_time, w) := time w in
  match _cache self !! ticker with
  | Some cached_item =>
      let age := current_time - timestamp cached_item in
      if age <? Middleware.seconds (_cache_ttl self) then
        (Fetched cached_item, self, print (EvCacheHit age) w)
      else refresh self ticker (print (EvCacheExpired age) w)
  | None => refresh self ticker (print EvCacheMiss w)
  end.

#[global] Instance CachingProxy_service : StockService (CachingProxy S) :=
  CachingProxy_get_stock_price.

End Proxy.

Section ProxyNotions.
Context {CK : Clock} {S : Type}.

(** No usable entry for a ticker: none at all, or one whose age has
    reached the TTL. *)
Definition proxy_stale (self : CachingProxy S) (symbol : string) (now_ : Z) : Prop :=
  match _cache self !! symbol with
  | Some item => Middleware.seconds (_cache_ttl self) <= now_ - timestamp item
  | None => True
  end.

(** The world in which the proxy calls the real service. *)
Definition world_at_refresh (self : CachingProxy S) (symbol : string) (w : World) : World :=
  let w1 := (time (print (EvProxyRequest symbol) w)).2 in
  match _cache self !! symbol with
  | Some item => print (EvCacheExpired (clock (ticks w) - timestamp item)) w1
  | None => print EvCacheMiss w1
  end.

End ProxyNotions.

(** A mock service that counts its calls. *)
Record CountingService (S : Type) := CountCalls {
  calls : nat;
  counted : S
}.
Arguments CountCalls {S} _ _.
Arguments calls {S} _.
Arguments counted {S} _.

#[global] Instance CountingService_service {S : Type} {SS : StockService S}
  : StockService (CountingService S) :=
  fun self symbol w =>
    let '(o, s, w) := get_stock_price (counted self) symbol w in
    (o, CountCalls (Datatypes.S (calls self)) s, w).

(** A mock service that is down: every call raises. *)
Inductive DownService := down_service.

#[global] Instance DownService_service : StockService DownService :=
  fun self symbol w => (Raised "ConnectionError", self, w).

(** A clock that reads [n] seconds at tick [n]. *)
Definition demo_clock : Clock := fun n => 1000000 * Z.of_nat n.

(** The world at a given tick of the clock, nothing printed yet. *)
Definition world_at (tick : nat) : World := {| stdout := []; ticks := tick |}.

(** [client_app]: one call of the service between two readings of the
    clock, then the two lines it prints. *)
Inductive ClientEvent :=
| EvResult (ticker : string) (price : Qc)
| EvTimeTaken (microseconds : Z).

Definition client_app {S : Type} {SS : StockService S} `{Clock}
  (service : S) (symbol : string) (w : World)
  : option (list ClientEvent) * S * World :=
  let '(start_time, w) := time w in
  let '(o, service, w) := get_stock_price service symbol w in
  match o with
  | Fetched data =>
      let '(end_time, w) := time w in
      (Some [EvResult (ticker data) (price data); EvTimeTaken (end_time - start_time)],
       service, w)
  | Raised _ => (None, service, w)
  end.

End StockAPI.

(** * Properties *)

(** ** Properties of the middleware chain *)

Section Properties.
Import Middleware.
Context {RT : Runtime}.

(** Case analysis on the call of the wrapped handler, and on the tests
    that follow it. *)
Ltac destruct_handle :=
  match goal with
  | |- context [handle ?h ?r ?w] =>
      destruct (handle h r w) as [[[?|? ?|?] ?] ?]
  end.

Ltac destruct_test :=
  match goal with
  | |- context [if ?b then _ else _] => destruct b eqn:?
  end.

(** The source-shaped [handle] and the two-phase description agree. *)
Lemma handle_pre_post {H : Type} {HH : HTTPHandler H}
  (self : MiddlewareDecorator H) (request : HTTPRequest.t) (w : World) :
  handle self request w = run_phases self request w.
Proof.
  destruct self as [u h].
  unfold handle at 1, MiddlewareDecorator_handler, MiddlewareDecorator_handle, run_phases.
  destruct u; simpl;
    unfold LoggingMiddleware_handle, AuthenticationMiddleware_handle,
      RateLimitingMiddleware_handle, CachingMiddleware_handle, caching_fetch,
      CompressionMiddleware_handle, MetricsMiddleware_handle, CORSMiddleware_handle,
      respond, now; simpl.
  - destruct_handle; reflexivity.
  - repeat (destruct_test; simpl; try reflexivity).
  - destruct_test; simpl; [reflexivity|].
    destruct_handle; reflexivity.
  - destruct (negb (bool_decide _)); simpl.
    { destruct_handle; reflexivity. }
    destruct (cache !! _) as [[cached expiry]|]; simpl.
    + destruct (_ <? _); simpl; [reflexivity|].
      destruct_handle; simpl; try reflexivity.
      destruct_test; reflexivity.
    + destruct_handle; simpl; try reflexivity.
      destruct_test; reflexivity.
  - destruct_handle; simpl; try reflexivity.
    destruct_test; reflexivity.
  - destruct_handle; reflexivity.
  - destruct_test; simpl; [reflexivity|].
    destruct_handle; reflexivity.
Qed.

(** **** The heap *)

Lemma alloc_fresh (r : HTTPResponse.t) (w : World) : heap w !! (alloc r w).1 = None.
Proof. apply not_elem_of_dom, is_fresh. Qed.

Lemma deref_alloc (r : HTTPResponse.t) (w : World) :
  deref (alloc r w).2 (alloc r w).1 = r.
Proof. unfold deref, alloc; simpl. apply lookup_total_insert_eq. Qed.

Lemma deref_alloc_old (r : HTTPResponse.t) (w : World) (l : loc) :
  is_Some (heap w !! l) -> deref (alloc r w).2 l = deref w l.
Proof.
  intros Hl.
  assert ((alloc r w).1 <> l) as Hne.
  { intros <-. rewrite alloc_fresh in Hl. by destruct Hl. }
  unfold deref. simpl. by apply lookup_total_insert_ne.
Qed.

Lemma deref_print (e : Event) (w : World) (l : loc) : deref (print e w) l = deref w l.
Proof. reflexivity. Qed.

Lemma deref_mutate (f : HTTPResponse.t -> HTTPResponse.t) (w : World) (l : loc) :
  is_Some (heap w !! l) -> deref (mutate l f w) l = f (deref w l).
Proof.
  intros [r Hr]. unfold deref, mutate; simpl.
  rewrite !lookup_total_alt, lookup_alter_eq, Hr. reflexivity.
Qed.

Lemma deref_mutate_ne (f : HTTPResponse.t -> HTTPResponse.t) (w : World) (l l' : loc) :
  l <> l' -> deref (mutate l f w) l' = deref w l'.
Proof.
  intros Hne. unfold deref, mutate; simpl.
  by rewrite !lookup_total_alt, lookup_alter_ne.
Qed.

(** **** Authentication *)

(** The guard of the authentication unit, on the credential as the unit
    computes it (the header with every occurrence of [Bearer ] removed):
    when the header is missing or empty, or that credential is not one of
    the valid tokens, the request gets a 401 response: the unit returns it
    as a value (the call never ends in a raised exception), the response is
    a new object carrying one of the two error bodies, and the wrapped
    handler is not called (its call count and its state are as before). *)
Theorem authentication_rejects_with_401 {H : Type} {HH : HTTPHandler H}
  (valid_tokens : gset string) (h : H) (n : nat) (request : HTTPRequest.t) (w : World) :
  rejected valid_tokens request ->
  exists (l : loc) (w' : World) (msg : string),
    handle (Decorate (Authentication valid_tokens) (Count n h)) request w
      = (Returned l, Decorate (Authentication valid_tokens) (Count n h), w')
    /\ heap w !! l = None
    /\ deref w' l = HTTPResponse.new 401 (error_body msg)
    /\ (msg = "Authentication required" \/ msg = "Invalid authentication token")
    /\ ticks w' = ticks w.
Proof.
  unfold rejected, credential. intros Hrej.
  unfold handle at 1, MiddlewareDecorator_handler, MiddlewareDecorator_handle; simpl.
  unfold AuthenticationMiddleware_handle, respond.
  destruct (PyStr.truthy _) eqn:Htruthy; simpl.
  - rewrite bool_decide_eq_false_2 by exact Hrej. simpl.
    eexists _, _, "Invalid authentication token".
    split; [reflexivity|].
    split; [apply not_elem_of_dom, is_fresh|].
    split; [apply lookup_total_insert_eq|].
    split; [right; reflexivity | reflexivity].
  - eexists _, _, "Authentication required".
    split; [reflexivity|].
    split; [apply not_elem_of_dom, is_fresh|].
    split; [apply lookup_total_insert_eq|].
    split; [left; reflexivity | reflexivity].
Qed.

(** **** Caching: requests that are not GET *)

(** C6.  For a request whose method is not GET the caching unit does
    nothing but delegate: the outcome, the wrapped handler after the call
    and the world after the call are those of the one call of the wrapped
    handler (made after the line the unit prints), whatever the cache table
    holds; and the cache table after the call is the cache table before
    it. *)
Theorem caching_bypassed_for_non_get {H : Type} {HH : HTTPHandler H}
  (ttl_seconds : Z) (cache : gmap string (loc * Z)) (h : H) (n : nat)
  (request : HTTPRequest.t) (w : World) :
  HTTPRequest.method request <> GET ->
  exists (o : Outcome) (h' : H) (w' : World),
    handle h request (print EvCacheBypass w) = (o, h', w')
    /\ handle (Decorate (Caching ttl_seconds cache) (Count n h)) request w
       = (o, Decorate (Caching ttl_seconds cache) (Count (S n) h'), w')
    /\ forall cache2 : gmap string (loc * Z),
        handle (Decorate (Caching ttl_seconds cache2) (Count n h)) request w
        = (o, Decorate (Caching ttl_seconds cache2) (Count (S n) h'), w').
Proof.
  intros Hmethod.
  destruct (handle h request (print EvCacheBypass w)) as [[o h'] w'] eqn:Hinner.
  exists o, h', w'. split; [reflexivity|].
  assert (forall c, handle (Decorate (Caching ttl_seconds c) (Count n h)) request w
                    = (o, Decorate (Caching ttl_seconds c) (Count (S n) h'), w')) as Hall.
  { intros c.
    unfold handle at 1, MiddlewareDecorator_handler, MiddlewareDecorator_handle; simpl.
    unfold CachingMiddleware_handle.
    rewrite bool_decide_eq_false_2 by exact Hmethod. simpl.
    unfold handle at 1, Counting_handler; simpl. rewrite Hinner. reflexivity. }
  split; [apply Hall | exact Hall].
Qed.

(** **** Caching: GET requests *)

(** The cache key is a function of the method, the path and the query
    parameters. *)
Lemma cache_key_deterministic (r1 r2 : HTTPRequest.t) :
  HTTPRequest.method r1 = HTTPRequest.method r2 ->
  HTTPRequest.path r1 = HTTPRequest.path r2 ->
  HTTPRequest.query_params r1 = HTTPRequest.query_params r2 ->
  _generate_cache_key r1 = _generate_cache_key r2.
Proof. unfold _generate_cache_key. by intros -> -> ->. Qed.

(** Setting a header leaves the rest of a response alone. *)
Lemma body_mutate_set_header (l l' : loc) (k v : string) (w : World) :
  HTTPResponse.body (deref (mutate l (fun r => HTTPResponse.set_header r k v) w) l')
  = HTTPResponse.body (deref w l').
Proof.
  unfold deref, mutate; simpl. rewrite !lookup_total_alt.
  destruct (decide (l = l')) as [<-|Hne].
  - rewrite lookup_alter_eq. by destruct (heap w !! l).
  - by rewrite lookup_alter_ne.
Qed.

Lemma status_mutate_set_header (l l' : loc) (k v : string) (w : World) :
  HTTPResponse.status_code (deref (mutate l (fun r => HTTPResponse.set_header r k v) w) l')
  = HTTPResponse.status_code (deref w l').
Proof.
  unfold deref, mutate; simpl. rewrite !lookup_total_alt.
  destruct (decide (l = l')) as [<-|Hne].
  - rewrite lookup_alter_eq. by destruct (heap w !! l).
  - by rewrite lookup_alter_ne.
Qed.

(** A hit: the entry is there and the clock reads less than its expiry. *)
Lemma caching_hit {H : Type} {HH : HTTPHandler H}
  (ttl_seconds : Z) (cache : gmap string (loc * Z)) (h : H)
  (request : HTTPRequest.t) (w : World) (l : loc) (expiry : Z) :
  HTTPRequest.method request = GET ->
  cache !! _generate_cache_key request = Some (l, expiry) ->
  clock (ticks w) < expiry ->
  handle (Decorate (Caching ttl_seconds cache) h) request w
  = (Returned l, Decorate (Caching ttl_seconds cache) h,
     mutate l (fun r => HTTPResponse.set_header r "x-cache" "HIT")
       (print (EvCacheHit (_generate_cache_key request)
                 (timedelta_seconds (expiry - clock (ticks w)))) (now w).2)).
Proof.
  intros Hget Hentry Hfresh.
  unfold handle at 1, MiddlewareDecorator_handler, MiddlewareDecorator_handle; simpl.
  unfold CachingMiddleware_handle.
  rewrite bool_decide_eq_true_2 by exact Hget. simpl.
  rewrite Hentry.
  by rewrite (proj2 (Z.ltb_lt _ _) Hfresh).
Qed.

(** A miss or an expired entry: the entry (if any) is evicted, the wrapped
    handler is called once, and its response is stored if it is a
    success. *)
Lemma caching_miss {H : Type} {HH : HTTPHandler H}
  (ttl_seconds : Z) (cache : gmap string (loc * Z)) (h : H)
  (request : HTTPRequest.t) (w : World) (o : Outcome) (h' : H) (w2 : World) :
  HTTPRequest.method request = GET ->
  stale cache (_generate_cache_key request) (clock (ticks w)) ->
  handle h request (world_at_fetch cache request w) = (o, h', w2) ->
  exists w' : World,
    handle (Decorate (Caching ttl_seconds cache) h) request w
    = (o,
       Decorate
         (Caching ttl_seconds
            (cache_after ttl_seconds (delete (_generate_cache_key request) cache)
               (_generate_cache_key request) (clock (ticks w)) o w2)) h',
       w')
    /\ (forall l, HTTPResponse.body (deref w' l) = HTTPResponse.body (deref w2 l))
    /\ (forall l, HTTPResponse.status_code (deref w' l) = HTTPResponse.status_code (deref w2 l)).
Proof.
  intros Hget Hstale Hinner.
  unfold handle at 1, MiddlewareDecorator_handler, MiddlewareDecorator_handle; simpl.
  unfold CachingMiddleware_handle.
  rewrite bool_decide_eq_true_2 by exact Hget. simpl.
  unfold stale, world_at_fetch in *.
  destruct (cache !! _generate_cache_key request) as [[cached expiry]|] eqn:Hentry.
  - rewrite (proj2 (Z.ltb_ge _ _) Hstale).
    unfold caching_fetch. simpl in Hinner. rewrite Hinner.
    unfold cache_after. destruct o as [r|s m|e]; try (eexists; split; [reflexivity|done]).
    destruct (HTTPResponse.is_success _); eexists; (split; [reflexivity|]); [|done].
    split; intros l0;
      [rewrite body_mutate_set_header | rewrite status_mutate_set_header]; reflexivity.
  - rewrite (delete_id _ _ Hentry).
    unfold caching_fetch. simpl in Hinner. rewrite Hinner.
    unfold cache_after. destruct o as [r|s m|e]; try (eexists; split; [reflexivity|done]).
    destruct (HTTPResponse.is_success _); eexists; (split; [reflexivity|]); [|done].
    split; intros l0;
      [rewrite body_mutate_set_header | rewrite status_mutate_set_header]; reflexivity.
Qed.

(** A call of the counting handler is one call of the handler it counts. *)
Lemma counting_handle {H : Type} {HH : HTTPHandler H}
  (n : nat) (h : H) (request : HTTPRequest.t) (w : World)
  (o : Outcome) (h' : H) (w' : World) :
  handle h request w = (o, h', w') ->
  handle (Count n h) request w = (o, Count (S n) h', w').
Proof.
  intros Hinner. unfold handle at 1, Counting_handler; simpl. by rewrite Hinner.
Qed.

(** C1.  Take a GET request whose cache key has an entry, stored at
    [stored_at] and so expiring at [stored_at + ttl].  A call made while
    the clock reads less than [stored_at + ttl] returns the stored response
    object, its body being what it was, and the wrapped handler is not
    called (a hit).  A call made when the clock reads [stored_at + ttl] or
    more evicts the entry and calls the wrapped handler exactly once, in
    the world a miss would call it in but for the line printed about the
    expiry; what is then stored is what a miss would store. *)
Theorem caching_ttl_boundary {H : Type} {HH : HTTPHandler H}
  (ttl_seconds : Z) (cache : gmap string (loc * Z)) (h : H) (n : nat)
  (request : HTTPRequest.t) (w : World) (l : loc) (stored_at : Z) :
  let cache_key := _generate_cache_key request in
  let expiry := stored_at + seconds ttl_seconds in
  HTTPRequest.method request = GET ->
  cache !! cache_key = Some (l, expiry) ->
  (clock (ticks w) < expiry ->
   exists w' : World,
     handle (Decorate (Caching ttl_seconds cache) (Count n h)) request w
     = (Returned l, Decorate (Caching ttl_seconds cache) (Count n h), w')
     /\ HTTPResponse.body (deref w' l) = HTTPResponse.body (deref w l))
  /\ (expiry <= clock (ticks w) ->
      exists (o : Outcome) (h' : H) (w2 w' : World),
        handle h request
          (print (EvCacheMiss cache_key) (print (EvCacheExpired cache_key) (now w).2))
        = (o, h', w2)
        /\ handle (Decorate (Caching ttl_seconds cache) (Count n h)) request w
           = (o,
              Decorate
                (Caching ttl_seconds
                   (cache_after ttl_seconds (delete cache_key cache) cache_key
                      (clock (ticks w)) o w2))
                (Count (S n) h'),
              w')
        /\ delete cache_key cache !! cache_key = None).
Proof.
  intros cache_key expiry Hget Hentry. split.
  - intros Hfresh. eexists. split.
    + by apply caching_hit with (expiry := expiry).
    + rewrite body_mutate_set_header. reflexivity.
  - intros Hexpired.
    pose (w1 := print (EvCacheMiss cache_key) (print (EvCacheExpired cache_key) (now w).2)).
    destruct (handle h request w1) as [[o h'] w2] eqn:Hinner.
    assert (world_at_fetch cache request w = w1) as Hw1.
    { unfold world_at_fetch. fold cache_key. by rewrite Hentry. }
    destruct (caching_miss ttl_seconds cache (Count n h) request w o (Count (S n) h') w2)
      as (w' & Hhandle & _); [exact Hget | | |].
    + unfold stale. fold cache_key. by rewrite Hentry.
    + rewrite Hw1. by apply counting_handle.
    + exists o, h', w2, w'. split; [exact Hinner|]. split; [exact Hhandle|].
      apply lookup_delete_eq.
Qed.

(** What the caching unit writes to its table in a call is the response
    that call returns, that response is a success, and the entry expires
    one TTL after the clock reading of the call. *)
Lemma caching_writes_only_successes {H : Type} {HH : HTTPHandler H}
  (ttl_seconds : Z) (cache : gmap string (loc * Z)) (h : H)
  (request : HTTPRequest.t) (w : World)
  (o : Outcome) (self' : MiddlewareDecorator H) (w' : World) :
  handle (Decorate (Caching ttl_seconds cache) h) request w = (o, self', w') ->
  exists cache' : gmap string (loc * Z),
    middleware self' = Caching ttl_seconds cache'
    /\ forall (k : string) (r : loc) (e : Z),
        cache' !! k = Some (r, e) ->
        cache !! k = Some (r, e)
        \/ (o = Returned r /\ HTTPResponse.is_success (deref w' r) = true
            /\ e = clock (ticks w) + seconds ttl_seconds).
Proof.
  unfold handle at 1, MiddlewareDecorator_handler, MiddlewareDecorator_handle; simpl.
  unfold CachingMiddleware_handle.
  assert (forall (c : gmap string (loc * Z)) key w0,
            (forall k r e, c !! k = Some (r, e) -> cache !! k = Some (r, e)) ->
            caching_fetch ttl_seconds c key (clock (ticks w)) h request w0 = (o, self', w') ->
            exists cache' : gmap string (loc * Z),
              middleware self' = Caching ttl_seconds cache'
              /\ forall (k : string) (r : loc) (e : Z),
                  cache' !! k = Some (r, e) ->
                  cache !! k = Some (r, e)
                  \/ (o = Returned r /\ HTTPResponse.is_success (deref w' r) = true
                      /\ e = clock (ticks w) + seconds ttl_seconds))
    as Hfetch.
  { intros c key w0 Hsub. unfold caching_fetch.
    destruct (handle h request _) as [[[r0|s m|e0] h0] w2].
    - destruct (HTTPResponse.is_success (deref w2 r0)) eqn:Hok;
        intros [= <- <- <-]; simpl; eexists; (split; [reflexivity|]); intros k r e.
      + rewrite lookup_insert. case_decide.
        * intros [= <- <-]. right. split; [reflexivity|]. split; [|reflexivity].
          unfold HTTPResponse.is_success in *.
          rewrite status_mutate_set_header. exact Hok.
        * intros Hk. left. by apply Hsub.
      + intros Hk. left. by apply Hsub.
    - intros [= <- <- <-]; simpl; eexists; (split; [reflexivity|]).
      intros k r e Hk. left. by apply Hsub.
    - intros [= <- <- <-]; simpl; eexists; (split; [reflexivity|]).
      intros k r e Hk. left. by apply Hsub. }
  destruct (negb (bool_decide _)); simpl.
  { destruct (handle h request _) as [[o0 h0] w0].
    intros [= <- <- <-]; simpl. eexists; split; [reflexivity|]. auto. }
  destruct (cache !! _generate_cache_key request) as [[cached expiry]|] eqn:Hentry.
  - destruct (_ <? _).
    + intros [= <- <- <-]; simpl. eexists; split; [reflexivity|]. auto.
    + apply Hfetch. intros k r e Hk.
      apply lookup_delete_Some in Hk. tauto.
  - apply Hfetch. auto.
Qed.

(** C2.  When a GET request finds no usable entry and the wrapped handler
    returns a response whose status is outside 200..299, the caching
    unit returns that response and stores nothing: its table has no entry
    for the key after the call, so that the next GET request with that
    key, whenever it comes, calls the wrapped handler again.  And in any
    call, an entry of the table that was not there before is the response
    returned by this call, a success, and it expires one TTL after the
    clock reading of this call. *)
Theorem caching_skips_failures {H : Type} {HH : HTTPHandler H}
  (ttl_seconds : Z) (cache : gmap string (loc * Z)) (h : H) (n : nat)
  (request : HTTPRequest.t) (w : World) (r : loc) (h' : H) (w2 : World) :
  let cache_key := _generate_cache_key request in
  HTTPRequest.method request = GET ->
  stale cache cache_key (clock (ticks w)) ->
  handle h request (world_at_fetch cache request w) = (Returned r, h', w2) ->
  HTTPResponse.is_success (deref w2 r) = false ->
  handle (Decorate (Caching ttl_seconds cache) (Count n h)) request w
  = (Returned r, Decorate (Caching ttl_seconds (delete cache_key cache)) (Count (S n) h'), w2)
  /\ delete cache_key cache !! cache_key = None
  /\ (forall (request2 : HTTPRequest.t) (w3 : World),
        HTTPRequest.method request2 = GET ->
        _generate_cache_key request2 = cache_key ->
        exists (o2 : Outcome) (h2 : H) (w4 : World) (cache2 : gmap string (loc * Z)),
          handle (Decorate (Caching ttl_seconds (delete cache_key cache)) (Count (S n) h'))
            request2 w3
          = (o2, Decorate (Caching ttl_seconds cache2) (Count (S (S n)) h2), w4))
  /\ (forall (request0 : HTTPRequest.t) (w0 : World) (o : Outcome)
             (self' : MiddlewareDecorator (Counting H)) (w' : World),
        handle (Decorate (Caching ttl_seconds cache) (Count n h)) request0 w0
        = (o, self', w') ->
        exists cache' : gmap string (loc * Z),
          middleware self' = Caching ttl_seconds cache'
          /\ forall (k : string) (r1 : loc) (e : Z),
              cache' !! k = Some (r1, e) ->
              cache !! k = Some (r1, e)
              \/ (o = Returned r1 /\ HTTPResponse.is_success (deref w' r1) = true
                  /\ e = clock (ticks w0) + seconds ttl_seconds)).
Proof.
  intros cache_key Hget Hstale Hinner Hfail.
  split; [|split; [apply lookup_delete_eq|split]].
  - unfold handle at 1, MiddlewareDecorator_handler, MiddlewareDecorator_handle; simpl.
    unfold CachingMiddleware_handle.
    rewrite bool_decide_eq_true_2 by exact Hget. simpl.
    apply (counting_handle n) in Hinner.
    unfold stale, world_at_fetch in *. fold cache_key in Hstale, Hinner |- *.
    destruct (cache !! cache_key) as [[cached expiry]|] eqn:Hentry.
    + rewrite (proj2 (Z.ltb_ge _ _) Hstale).
      unfold caching_fetch. simpl in Hinner. rewrite Hinner. by rewrite Hfail.
    + rewrite (delete_id _ _ Hentry).
      unfold caching_fetch. simpl in Hinner. rewrite Hinner. by rewrite Hfail.
  - intros request2 w3 Hget2 Hkey2.
    destruct (handle h' request2 (world_at_fetch (delete cache_key cache) request2 w3))
      as [[o2 h2] w4] eqn:Hinner2.
    destruct (caching_miss ttl_seconds (delete cache_key cache) (Count (S n) h')
                request2 w3 o2 (Count (S (S n)) h2) w4) as (w' & Hhandle & _).
    + exact Hget2.
    + unfold stale. rewrite Hkey2. by rewrite lookup_delete_eq.
    + by apply counting_handle.
    + eauto.
  - intros request0 w0 o self' w'. apply caching_writes_only_successes.
Qed.

(** **** Order of execution when a unit short-circuits *)

(** C3.  In a pipeline where unit [A] wraps unit [B], which wraps the rest
    of the chain down to the core handler: when [B] answers by itself, [A]'s
    pre-delegation logic has run ([B] sees the request and the world that
    logic made), [A]'s post-delegation logic runs on [B]'s response and
    gives what the pipeline returns, and nothing inward of [B] has run: the
    handler [B] wraps is as it was, and so is its call count. *)
Theorem short_circuit_order {H : Type} {HH : HTTPHandler H}
  (A B : Middleware) (h : H) (n : nat) (request : HTTPRequest.t) (w : World)
  (request1 : HTTPRequest.t) (w1 : World)
  (post_A : Outcome -> World -> Outcome * Middleware * World)
  (l : loc) (B' : Middleware) (w2 : World) :
  pre_logic A request w = Delegate request1 w1 post_A ->
  pre_logic B request1 w1 = ShortCircuit l B' w2 ->
  exists (o : Outcome) (A' : Middleware) (w3 : World),
    post_A (Returned l) w2 = (o, A', w3)
    /\ handle (Decorate B (Count n h)) request1 w1
       = (Returned l, Decorate B' (Count n h), w2)
    /\ handle (Decorate A (Decorate B (Count n h))) request w
       = (o, Decorate A' (Decorate B' (Count n h)), w3).
Proof.
  intros HA HB.
  assert (handle (Decorate B (Count n h)) request1 w1
          = (Returned l, Decorate B' (Count n h), w2)) as Hinner.
  { rewrite handle_pre_post. unfold run_phases; simpl. by rewrite HB. }
  destruct (post_A (Returned l) w2) as [[o A'] w3] eqn:Hpost.
  exists o, A', w3. split; [reflexivity|]. split; [exact Hinner|].
  rewrite handle_pre_post. unfold run_phases; simpl.
  rewrite HA, Hinner, Hpost. reflexivity.
Qed.

(** **** Rate limiting *)

Lemma recent_count_ones (entries : list (Z * Z)) :
  Forall (fun e => (exists i : nat, e.1 = clock i) /\ e.2 = 1) entries ->
  recent_count entries = Z.of_nat (List.length entries).
Proof.
  induction 1 as [|e entries [_ He] _ IH]; [reflexivity|].
  unfold recent_count in *. simpl. rewrite IH, He. lia.
Qed.

Lemma filter_within_window (window_seconds t : Z) (entries : list (Z * Z)) :
  (forall i, t - seconds window_seconds < clock i) ->
  Forall (fun e => (exists i : nat, e.1 = clock i) /\ e.2 = 1) entries ->
  filter (fun e => t - seconds window_seconds < e.1) entries = entries.
Proof.
  intros Hwin. induction 1 as [|e entries [[i Hi] _] _ IH]; [reflexivity|].
  rewrite filter_cons_True; [by rewrite IH|]. rewrite Hi. apply Hwin.
Qed.

(** One request under the limit: it is logged and delegated. *)
Lemma rate_limit_allows {H : Type} {HH : HTTPHandler H}
  (max_requests window_seconds : Z) (request_log : gmap PyVal (list (Z * Z)))
  (h : H) (request : HTTPRequest.t) (w : World) (k : nat) :
  (forall i j, clock i - clock j < seconds window_seconds) ->
  logged k request_log (identity request) ->
  Z.of_nat k < max_requests ->
  exists (request_log' : gmap PyVal (list (Z * Z))) (w1 : World),
    logged (S k) request_log' (identity request)
    /\ handle (Decorate (RateLimiting max_requests window_seconds request_log) h) request w
       = let '(o, h', w') := handle h request w1 in
         (o, Decorate (RateLimiting max_requests window_seconds request_log') h', w').
Proof.
  intros Hwin [Hlen Hall] Hk.
  unfold handle at 1, MiddlewareDecorator_handler, MiddlewareDecorator_handle; simpl.
  unfold RateLimitingMiddleware_handle. fold (identity request). simpl.
  rewrite filter_within_window; [|intros i; specialize (Hwin (ticks w) i); lia|exact Hall].
  rewrite (recent_count_ones _ Hall), Hlen.
  rewrite (proj2 (Z.leb_gt _ _) Hk).
  eexists _, _. split; [|reflexivity].
  unfold logged. rewrite lookup_insert_eq. simpl. split.
  - rewrite length_app, Hlen. simpl. lia.
  - apply Forall_app. split; [exact Hall|]. repeat constructor. by exists (ticks w).
Qed.

(** One request at the limit: a 429 response, and no delegation. *)
Lemma rate_limit_rejects {H : Type} {HH : HTTPHandler H}
  (max_requests window_seconds : Z) (request_log : gmap PyVal (list (Z * Z)))
  (h : H) (request : HTTPRequest.t) (w : World) (k : nat) :
  (forall i j, clock i - clock j < seconds window_seconds) ->
  logged k request_log (identity request) ->
  max_requests <= Z.of_nat k ->
  exists (request_log' : gmap PyVal (list (Z * Z))) (l : loc) (w' : World),
    handle (Decorate (RateLimiting max_requests window_seconds request_log) h) request w
    = (Returned l, Decorate (RateLimiting max_requests window_seconds request_log') h, w')
    /\ HTTPResponse.status_code (deref w' l) = 429.
Proof.
  intros Hwin [Hlen Hall] Hk.
  unfold handle at 1, MiddlewareDecorator_handler, MiddlewareDecorator_handle; simpl.
  unfold RateLimitingMiddleware_handle. fold (identity request). simpl.
  rewrite filter_within_window; [|intros i; specialize (Hwin (ticks w) i); lia|exact Hall].
  rewrite (recent_count_ones _ Hall), Hlen.
  rewrite (proj2 (Z.leb_le _ _) Hk).
  unfold respond; simpl. eexists _, _, _. split; [reflexivity|].
  unfold deref; simpl. by rewrite lookup_total_insert_eq.
Qed.

Lemma serve_app {H : Type} {HH : HTTPHandler H} (h : H)
  (requests1 requests2 : list HTTPRequest.t) (w : World) :
  serve h (requests1 ++ requests2) w
  = let '(statuses1, h1, w1) := serve h requests1 w in
    let '(statuses2, h2, w2) := serve h1 requests2 w1 in
    (statuses1 ++ statuses2, h2, w2).
Proof.
  revert h w. induction requests1 as [|request rest IH]; intros h w; simpl.
  - by destruct (serve h requests2 w) as [[? ?] ?].
  - destruct (handle h request w) as [[o h0] w0]. rewrite IH.
    destruct (serve h0 rest w0) as [[s1 h1] w1].
    by destruct (serve h1 requests2 w1) as [[s2 h2] w2].
Qed.

(** As long as the limit is not reached, every request is delegated. *)
Lemma serve_under_limit {H : Type} {HH : HTTPHandler H}
  (max_requests window_seconds : Z) (uid : PyVal) (requests : list HTTPRequest.t) :
  (forall i j, clock i - clock j < seconds window_seconds) ->
  Forall (fun request => identity request = uid) requests ->
  answers_200 requests ->
  forall (k : nat) (request_log : gmap PyVal (list (Z * Z))) (h : H) (n : nat) (w : World),
    logged k request_log uid ->
    Z.of_nat (k + List.length requests) <= max_requests ->
    exists (request_log' : gmap PyVal (list (Z * Z))) (h' : H) (w' : World),
      serve (Decorate (RateLimiting max_requests window_seconds request_log) (Count n h))
        requests w
      = (map (fun _ => Some 200) requests,
         Decorate (RateLimiting max_requests window_seconds request_log')
           (Count (n + List.length requests) h'),
         w')
      /\ logged (k + List.length requests) request_log' uid.
Proof.
  intros Hwin Hids Hok.
  induction requests as [|request rest IH]; intros k request_log h n w Hlog Hk; simpl.
  - exists request_log, h, w. rewrite !Nat.add_0_r. by split.
  - apply Forall_cons in Hids as [Hid Hids].
    destruct (rate_limit_allows max_requests window_seconds request_log (Count n h)
                request w k Hwin) as (log1 & w1 & Hlog1 & Hstep).
    + by rewrite Hid.
    + simpl in Hk. lia.
    + rewrite Hstep.
      destruct (Hok request (list_elem_of_here _ _) h w1) as (l & h1 & w2 & Hinner & Hstatus).
      rewrite (counting_handle n h request w1 _ _ _ Hinner).
      rewrite Hid in Hlog1.
      destruct (IH Hids (fun r Hr => Hok r (list_elem_of_further _ _ _ Hr))
                  (S k) log1 h1 (S n) w2 Hlog1) as (log2 & h2 & w3 & Hserve & Hlog2).
      { simpl in Hk. lia. }
      rewrite Hserve. exists log2, h2, w3. simpl. rewrite Hstatus.
      rewrite <- !Nat.add_succ_comm. by split.
Qed.

(** C4.  A rate limiter set to 5 requests per 60 seconds, with nothing
    logged for an identity, is given 6 requests of that identity in
    sequence, all within the window, in front of a handler that answers
    them with 200: the statuses read by the caller are 200 five times and
    then 429, and the wrapped handler has been called 5 times, so not for
    the sixth request. *)
Theorem rate_limit_five_then_429 {H : Type} {HH : HTTPHandler H}
  (request_log : gmap PyVal (list (Z * Z))) (uid : PyVal)
  (requests : list HTTPRequest.t) (h : H) (n : nat) (w : World) :
  List.length requests = 6%nat ->
  Forall (fun request => identity request = uid) requests ->
  logged 0 request_log uid ->
  (forall i j, clock i - clock j < seconds 60) ->
  answers_200 requests ->
  exists (request_log' : gmap PyVal (list (Z * Z))) (h' : H) (w' : World),
    serve (Decorate (RateLimiting 5 60 request_log) (Count n h)) requests w
    = ([Some 200; Some 200; Some 200; Some 200; Some 200; Some 429],
       Decorate (RateLimiting 5 60 request_log') (Count (n + 5) h'),
       w').
Proof.
  intros Hlen Hids Hlog Hwin Hok.
  destruct requests as [|r1 [|r2 [|r3 [|r4 [|r5 [|r6 [|]]]]]]]; try discriminate Hlen.
  change [r1; r2; r3; r4; r5; r6] with ([r1; r2; r3; r4; r5] ++ [r6]) in *.
  apply Forall_app in Hids as [Hids5 Hid6].
  apply Forall_inv in Hid6.
  destruct (serve_under_limit 5 60 uid [r1; r2; r3; r4; r5] Hwin Hids5) with
    (k := 0%nat) (request_log := request_log) (h := h) (n := n) (w := w)
    as (log5 & h5 & w5 & Hserve & Hlog5); [|exact Hlog|simpl; lia|].
  { intros r Hr. apply Hok. apply elem_of_app. by left. }
  rewrite serve_app, Hserve. simpl.
  destruct (rate_limit_rejects 5 60 log5 (Count (n + 5) h5) r6 w5 5 Hwin)
    as (log6 & l & w6 & Hstep & Hstatus).
  - by rewrite Hid6.
  - simpl. lia.
  - rewrite Hstep. simpl. rewrite Hstatus. eauto.
Qed.

(** **** Metrics *)

Lemma fresh_metrics_invariant : metrics_invariant 0 fresh_metrics.
Proof. unfold metrics_invariant, counted_statuses. simpl. by rewrite map_fold_empty. Qed.

Lemma sum_incr (code : Z) (d : gmap Z Z) :
  map_fold (fun _ c acc => c + acc) 0 (incr code d)
  = map_fold (fun _ c acc => c + acc) 0 d + 1.
Proof.
  unfold incr. destruct (d !! code) as [c|] eqn:Hcode; simpl.
  - rewrite <- insert_delete_eq.
    rewrite map_fold_insert_L; [|intros; lia|apply lookup_delete_eq].
    rewrite (map_fold_delete_L _ _ code c d); [lia|intros; lia|exact Hcode].
  - rewrite map_fold_insert_L; [lia|intros; lia|exact Hcode].
Qed.

Lemma record_response_invariant (k : Z) (m : Metrics) (request : HTTPRequest.t)
  (response : HTTPResponse.t) (latency : Qc) :
  metrics_invariant k m ->
  metrics_invariant (k + 1) (record_response m request response latency).
Proof.
  intros (Htotal & Hsum & Hk). unfold metrics_invariant, counted_statuses, record_response.
  simpl. rewrite sum_incr. fold (counted_statuses m).
  destruct (HTTPResponse.is_success response); lia.
Qed.

Lemma record_exception_invariant (k : Z) (m : Metrics) (status : Z) (latency : Qc) :
  metrics_invariant k m ->
  metrics_invariant (k + 1) (record_exception m status latency).
Proof.
  intros (Htotal & Hsum & Hk). unfold metrics_invariant, counted_statuses, record_exception.
  simpl. rewrite sum_incr. fold (counted_statuses m). lia.
Qed.

(** One call of the metrics unit: what it gives is what the wrapped handler
    gives, and the invariant moves on by one if that produced a status. *)
Lemma metrics_step {H : Type} {HH : HTTPHandler H}
  (k : Z) (m : Metrics) (h : H) (request : HTTPRequest.t) (w : World) :
  metrics_invariant k m ->
  exists (o : Outcome) (m' : Metrics) (h' : H) (w' : World),
    handle (Decorate (MetricsOf m) h) request w = (o, Decorate (MetricsOf m') h', w')
    /\ metrics_invariant (k + (if produced_status o then 1 else 0)) m'.
Proof.
  intros Hinv.
  unfold handle at 1, MiddlewareDecorator_handler, MiddlewareDecorator_handle; simpl.
  unfold MetricsMiddleware_handle. simpl.
  destruct_handle; simpl; eexists _, _, _, _; (split; [reflexivity|]); simpl.
  - by apply record_response_invariant.
  - by apply record_exception_invariant.
  - by rewrite Z.add_0_r.
Qed.

(** C10.  The metrics unit keeps its invariant over any sequence of calls,
    whether the wrapped handler returns or raises: starting from metrics
    where [total_requests = successful_requests + failed_requests] and
    where the status-code counters add up to the number [k] of calls that
    produced a status code so far, the metrics after the calls satisfy the
    same, [k] having grown by the number of these calls that produced a
    status code. *)
Theorem metrics_invariant_kept {H : Type} {HH : HTTPHandler H}
  (requests : list HTTPRequest.t) (k : Z) (m : Metrics) (h : H) (w : World) :
  metrics_invariant k m ->
  exists (outcomes : list Outcome) (m' : Metrics) (h' : H) (w' : World),
    run (Decorate (MetricsOf m) h) requests w
    = (outcomes, Decorate (MetricsOf m') h', w')
    /\ List.length outcomes = List.length requests
    /\ metrics_invariant (k + status_calls outcomes) m'.
Proof.
  revert k m h w. induction requests as [|request rest IH]; intros k m h w Hinv; simpl.
  - exists [], m, h, w. simpl. by rewrite Z.add_0_r.
  - destruct (metrics_step k m h request w Hinv) as (o & m1 & h1 & w1 & Hstep & Hinv1).
    rewrite Hstep.
    destruct (IH _ m1 h1 w1 Hinv1) as (outcomes & m2 & h2 & w2 & Hrun & Hlen & Hinv2).
    rewrite Hrun. exists (o :: outcomes), m2, h2, w2.
    split; [reflexivity|]. split; [simpl; by rewrite Hlen|].
    simpl. by rewrite Z.add_assoc.
Qed.

(** **** A response after it has been returned *)

(** X26.  A cache hit writes to the stored response object: the object an
    earlier call returned to its caller gets its [x-cache] header set to
    [HIT], its other headers staying as they were. *)
Lemma cache_hit_mutates_stored_response {H : Type} {HH : HTTPHandler H}
  (ttl_seconds : Z) (cache : gmap string (loc * Z)) (h : H)
  (request : HTTPRequest.t) (w : World) (l : loc) (expiry : Z) :
  HTTPRequest.method request = GET ->
  cache !! _generate_cache_key request = Some (l, expiry) ->
  clock (ticks w) < expiry ->
  is_Some (heap w !! l) ->
  exists w' : World,
    handle (Decorate (Caching ttl_seconds cache) h) request w
    = (Returned l, Decorate (Caching ttl_seconds cache) h, w')
    /\ HTTPResponse.headers (deref w' l)
       = <["x-cache" := "HIT"]> (HTTPResponse.headers (deref w l)).
Proof.
  intros Hget Hentry Hfresh Hl. eexists. split.
  - by apply caching_hit with (expiry := expiry).
  - rewrite deref_mutate by exact Hl. reflexivity.
Qed.

(** X25.  The logging unit writes the time between its two readings of the
    clock, before and after the wrapped handler's call, into the response it
    passes on, whatever was there. *)
Lemma logging_overwrites_execution_time {H : Type} {HH : HTTPHandler H}
  (h : H) (request : HTTPRequest.t) (w : World) (l : loc) (h' : H) (w2 : World) :
  handle h request
    (now (print (EvLogIncoming (HTTPRequest.request_id request)
                   (HTTPRequest.method request) (HTTPRequest.path request)) w)).2
  = (Returned l, h', w2) ->
  is_Some (heap w2 !! l) ->
  exists w' : World,
    handle (Decorate Logging h) request w = (Returned l, Decorate Logging h', w')
    /\ HTTPResponse.execution_time_ms (deref w' l)
       = Some (elapsed_ms (clock (ticks w)) (clock (ticks w2))).
Proof.
  intros Hinner Hl.
  unfold handle at 1, MiddlewareDecorator_handler, MiddlewareDecorator_handle; simpl.
  unfold LoggingMiddleware_handle. simpl in *. rewrite Hinner. simpl.
  eexists. split; [reflexivity|].
  rewrite deref_mutate by exact Hl. reflexivity.
Qed.

End Properties.

Section HeaderNames.
Import Middleware.

(** **** Header names *)

(** Lookup and storage through the methods both lower the name, so a
    header stored with [set_header] is found under any casing. *)
Lemma get_header_set_header (request : HTTPRequest.t) (name1 name2 val : string)
  (dflt : option string) :
  PyStr.lower name1 = PyStr.lower name2 ->
  HTTPRequest.get_header (HTTPRequest.set_header request name1 val) name2 dflt = Some val.
Proof.
  intros Hcase. unfold HTTPRequest.get_header, HTTPRequest.set_header; simpl.
  by rewrite Hcase, lookup_insert_eq.
Qed.

(** C9.  On the request
    [HTTPRequest(GET, "/users", headers={"Authorization": "Bearer secret-token-123"})]
    the header is stored under the key as given, and [get_header] does not
    find it, neither under ["Authorization"] nor under ["authorization"]. *)
Theorem get_header_misses_constructor_key :
  let request :=
    request_with_headers GET "/users" [("Authorization", "Bearer secret-token-123")] in
  HTTPRequest.headers request !! "Authorization" = Some "Bearer secret-token-123"
  /\ HTTPRequest.get_header request "Authorization" None = None
  /\ HTTPRequest.get_header request "authorization" None = None.
Proof. vm_compute. auto. Qed.

End HeaderNames.

(** *** The chain on concrete requests *)

Section Demonstration.
Import Middleware.
#[local] Existing Instance demo_runtime.

(** TEST 3 of the demonstration, the request without credentials: the
    units outward of the authentication unit print before and after it,
    and nothing inward of it prints. *)
Example demo_unauthenticated_trace :
  let request := request_with_headers GET "/users" [("accept-encoding", "gzip")] in
  let '(o, _, w) := handle full_handler request empty_world in
  status_of o w = Some 401
  /\ stdout w
     = [EvLogIncoming None GET "/users"; EvAuthChecking; EvAuthNoHeader; EvCORSAdded "*";
        EvLogResponse 401 (elapsed_ms 1000 4000);
        EvMetricsRecorded (elapsed_ms 0 9000) 401 0 1].
Proof. vm_compute. split; reflexivity. Qed.

(** C5.  The authentication unit with the demonstration's tokens, in front
    of the API handler, on [GET /users] with the [authorization] header
    [Bearer Bearer secret-token-123]: the credential that follows the
    prefix, [Bearer secret-token-123], is not one of the valid tokens, and
    yet the unit does not answer 401: it calls the wrapped handler and
    returns its 200 response.  The same happens with the header
    [secret-Bearer token-123], which is not a valid token either:
    [auth_header.replace("Bearer ", ...)] removes every occurrence of the
    prefix, wherever it stands, before the token is looked up. *)
Theorem authentication_admits_malformed_credential :
  let unit := Decorate (Authentication demo_tokens) (Count 0 api_handler) in
  let request (header : string) :=
    request_with_headers GET "/users" [("authorization", header)] in
  ("Bearer secret-token-123" ∉ demo_tokens)
  /\ ("Bearer Bearer secret-token-123" ∉ demo_tokens)
  /\ ("secret-Bearer token-123" ∉ demo_tokens)
  /\ (exists (l : loc) (h' : APIHandler) (w' : World),
        handle unit (request "Bearer Bearer secret-token-123") empty_world
        = (Returned l, Decorate (Authentication demo_tokens) (Count 1 h'), w')
        /\ HTTPResponse.status_code (deref w' l) = 200)
  /\ (exists (l : loc) (h' : APIHandler) (w' : World),
        handle unit (request "secret-Bearer token-123") empty_world
        = (Returned l, Decorate (Authentication demo_tokens) (Count 1 h'), w')
        /\ HTTPResponse.status_code (deref w' l) = 200).
Proof.
  intros unit request.
  assert (forall s : string,
            s <> "secret-token-123" -> s <> "admin-token-456" -> s ∉ demo_tokens)
    as Hinvalid.
  { intros s Hs1 Hs2. unfold demo_tokens.
    apply not_elem_of_union. split; by apply not_elem_of_singleton. }
  split; [by apply Hinvalid|].
  split; [by apply Hinvalid|].
  split; [by apply Hinvalid|].
  split; eexists _, _, _; (split; [vm_compute; reflexivity|]); vm_compute; reflexivity.
Qed.

(** C8.  The pipeline [LoggingMiddleware(CachingMiddleware(api_handler, 60))]
    is called twice with [GET /users].  Both calls return the same response
    object.  When the first call returns, that object has [x-cache: MISS]
    and an execution time of 4 ms; after the second call the same object,
    which the first caller still holds, has [x-cache: HIT] and an
    execution time of 16 ms. *)
Theorem returned_response_mutated_by_next_call :
  let pipeline := Decorate Logging (Decorate (Caching 60 ∅) api_handler) in
  let request := request_with_headers GET "/users" [] in
  let '(o1, pipeline1, w1) := handle pipeline request empty_world in
  let '(o2, _, w2) := handle pipeline1 request w1 in
  o1 = Returned 0%nat /\ o2 = Returned 0%nat
  /\ HTTPResponse.headers (deref w1 0%nat) !! "x-cache" = Some "MISS"
  /\ HTTPResponse.headers (deref w2 0%nat) !! "x-cache" = Some "HIT"
  /\ HTTPResponse.execution_time_ms (deref w1 0%nat) = Some (elapsed_ms 0 4000)
  /\ HTTPResponse.execution_time_ms (deref w2 0%nat) = Some (elapsed_ms 0 16000)
  /\ HTTPResponse.body (deref w2 0%nat) = HTTPResponse.body (deref w1 0%nat).
Proof. vm_compute. repeat split; reflexivity. Qed.

(** [caching_ttl_boundary] at an entry stored at time 0 with a TTL of
    60 s: a hit at tick 1 (1 ms), an expiry at tick 245 (60.025 s). *)
Lemma caching_ttl_boundary_witness :
  (exists w' : World,
     handle (Decorate (Caching 60 stored_cache) (Count 0 api_handler)) get_users (world_at 1)
     = (Returned 0%nat, Decorate (Caching 60 stored_cache) (Count 0 api_handler), w')
     /\ HTTPResponse.body (deref w' 0%nat) = HTTPResponse.body (deref (world_at 1) 0%nat))
  /\ (exists (cache' : gmap string (loc * Z)) (o : Outcome) (h' : APIHandler) (w' : World),
        handle (Decorate (Caching 60 stored_cache) (Count 0 api_handler)) get_users
          (world_at 245)
        = (o, Decorate (Caching 60 cache') (Count 1 h'), w')).
Proof.
  split.
  - apply (caching_ttl_boundary 60 stored_cache api_handler 0 get_users (world_at 1) 0%nat 0);
      [reflexivity | reflexivity | vm_compute; reflexivity].
  - destruct (caching_ttl_boundary 60 stored_cache api_handler 0 get_users (world_at 245)
                0%nat 0) as [_ Hexpired]; [reflexivity | reflexivity |].
    destruct Hexpired as (o & h' & w2 & w' & _ & Hhandle & _);
      [vm_compute; discriminate|].
    exact (ex_intro _ _ (ex_intro _ o (ex_intro _ h' (ex_intro _ w' Hhandle)))).
Defined.

(** [caching_skips_failures] at that request, on an empty table. *)
Lemma caching_skips_failures_witness :
  exists (r : loc) (h' : APIHandler) (w2 : World),
    handle (Decorate (Caching 60 ∅) (Count 0 api_handler)) get_missing empty_world
    = (Returned r,
       Decorate (Caching 60 (delete (_generate_cache_key get_missing) ∅)) (Count 1 h'), w2)
    /\ HTTPResponse.status_code (deref w2 r) = 404.
Proof.
  eexists _, _, _. split.
  - apply (caching_skips_failures 60 ∅ api_handler 0 get_missing empty_world);
      [reflexivity | vm_compute; exact I | vm_compute; reflexivity | vm_compute; reflexivity].
  - vm_compute. reflexivity.
Defined.

(** [short_circuit_order] at the logging unit around the authentication
    unit, for a request without credentials. *)
Lemma short_circuit_order_witness :
  exists (o : Outcome) (A' : Middleware) (w3 : World),
    handle (Decorate Logging (Decorate (Authentication demo_tokens) (Count 0 api_handler)))
      get_users empty_world
    = (o, Decorate A' (Decorate (Authentication demo_tokens) (Count 0 api_handler)), w3).
Proof.
  edestruct (short_circuit_order Logging (Authentication demo_tokens) api_handler 0
               get_users empty_world) as (o & A' & w3 & _ & _ & Hhandle).
  - simpl. reflexivity.
  - vm_compute. reflexivity.
  - exists o, A', w3. exact Hhandle.
Defined.

(** [authentication_rejects_with_401] at a request without the header,
    and at a request with a token that is not valid. *)
Lemma authentication_rejects_with_401_witness :
  (exists (l : loc) (w' : World),
     handle (Decorate (Authentication demo_tokens) (Count 0 api_handler))
       get_users empty_world
     = (Returned l, Decorate (Authentication demo_tokens) (Count 0 api_handler), w')
     /\ HTTPResponse.status_code (deref w' l) = 401)
  /\ (exists (l : loc) (w' : World),
        handle (Decorate (Authentication demo_tokens) (Count 0 api_handler))
          (request_with_headers GET "/users" [("authorization", "Bearer letmein")])
          empty_world
        = (Returned l, Decorate (Authentication demo_tokens) (Count 0 api_handler), w')
        /\ HTTPResponse.status_code (deref w' l) = 401).
Proof.
  split.
  - destruct (authentication_rejects_with_401 demo_tokens api_handler 0 get_users empty_world)
      as (l & w' & msg & Hhandle & _ & Hderef & _); [vm_compute; exact I|].
    exists l, w'. split; [exact Hhandle|]. rewrite Hderef. reflexivity.
  - destruct (authentication_rejects_with_401 demo_tokens api_handler 0
                (request_with_headers GET "/users" [("authorization", "Bearer letmein")])
                empty_world)
      as (l & w' & msg & Hhandle & _ & Hderef & _); [vm_compute; discriminate|].
    exists l, w'. split; [exact Hhandle|]. rewrite Hderef. reflexivity.
Defined.

(** [caching_bypassed_for_non_get] at a POST request. *)
Lemma caching_bypassed_for_non_get_witness :
  exists (o : Outcome) (h' : APIHandler) (w' : World),
    handle (Decorate (Caching 60 stored_cache) (Count 0 api_handler))
      (request_with_headers POST "/users" []) empty_world
    = (o, Decorate (Caching 60 stored_cache) (Count 1 h'), w').
Proof.
  destruct (caching_bypassed_for_non_get 60 stored_cache api_handler 0
              (request_with_headers POST "/users" []) empty_world)
    as (o & h' & w' & _ & Hhandle & _); [discriminate|].
  exists o, h', w'. exact Hhandle.
Defined.

(** [metrics_invariant_kept] from the metrics of a new unit, over a served
    and an unserved request. *)
Lemma metrics_invariant_kept_witness :
  exists (outcomes : list Outcome) (m' : Metrics) (h' : APIHandler) (w' : World),
    run (Decorate (MetricsOf fresh_metrics) api_handler) [get_users; get_missing] empty_world
    = (outcomes, Decorate (MetricsOf m') h', w')
    /\ metrics_invariant (0 + status_calls outcomes) m'.
Proof.
  destruct (metrics_invariant_kept [get_users; get_missing] 0 fresh_metrics api_handler
              empty_world) as (outcomes & m' & h' & w' & Hrun & _ & Hinv).
  - vm_compute. repeat split; reflexivity.
  - exists outcomes, m', h', w'. split; [exact Hrun | exact Hinv].
Defined.

End Demonstration.

Section Burst.
Import Middleware.
#[local] Existing Instance burst_runtime.

(** [rate_limit_five_then_429] at six anonymous requests for [/products]
    in front of the API handler. *)
Lemma rate_limit_five_then_429_witness :
  exists (request_log' : gmap PyVal (list (Z * Z))) (h' : APIHandler) (w' : World),
    serve (Decorate (RateLimiting 5 60 ∅) (Count 0 api_handler))
      (replicate 6 get_products) empty_world
    = ([Some 200; Some 200; Some 200; Some 200; Some 200; Some 429],
       Decorate (RateLimiting 5 60 request_log') (Count 5 h'), w').
Proof.
  apply (rate_limit_five_then_429 ∅ (PStr "anonymous") (replicate 6 get_products)
           api_handler 0 empty_world).
  - reflexivity.
  - repeat constructor.
  - split; [reflexivity | constructor].
  - intros i j. unfold clock, burst_runtime, seconds. lia.
  - intros request Hin s w. apply elem_of_replicate in Hin as [-> _].
    eexists _, _, _. split; [reflexivity|].
    unfold deref. simpl. rewrite lookup_total_insert_eq. reflexivity.
Defined.

End Burst.

(** ** Properties of the caching proxy *)

Section ProxyProperties.
Import StockAPI.
Context {CK : Clock} {S : Type} {SS : StockService S}.

(** Within the TTL the proxy answers from its table and leaves the real
    service alone. *)
Lemma proxy_hit (self : CachingProxy S) (symbol : string) (w : World) (item : StockData) :
  _cache self !! symbol = Some item ->
  clock (ticks w) < timestamp item + Middleware.seconds (_cache_ttl self) ->
  exists w' : World, get_stock_price self symbol w = (Fetched item, self, w').
Proof.
  intros Hitem Hfresh.
  unfold get_stock_price at 1, CachingProxy_service, CachingProxy_get_stock_price; simpl.
  rewrite Hitem.
  rewrite (proj2 (Z.ltb_lt _ _)) by lia. eauto.
Qed.

(** From the TTL on the proxy calls the real service, once, and saves what
    it fetched over the old entry. *)
Lemma proxy_expired (self : CachingProxy S) (symbol : string) (w : World) (item : StockData) :
  _cache self !! symbol = Some item ->
  timestamp item + Middleware.seconds (_cache_ttl self) <= clock (ticks w) ->
  get_stock_price self symbol w
  = refresh self symbol
      (print (EvCacheExpired (clock (ticks w) - timestamp item))
         (time (print (EvProxyRequest symbol) w)).2).
Proof.
  intros Hitem Hexpired.
  unfold get_stock_price at 1, CachingProxy_service, CachingProxy_get_stock_price; simpl.
  rewrite Hitem.
  by rewrite (proj2 (Z.ltb_ge _ _)) by lia.
Qed.

End ProxyProperties.

(** ** Construction with an invalid configuration *)

Section Construction.
Import Middleware.

(** The specification's sentence fails on a TTL of -5: both constructors
    return the object, none raises. *)
Lemma negative_ttl_not_refused :
  (-5 < 0)
  /\ ~ (exists message : string,
          CachingMiddleware_init api_handler (-5) = ConfigurationError message)
  /\ ~ (exists message : string,
          StockAPI.CachingProxy_init StockAPI.external_stock_api (-5)
          = ConfigurationError message).
Proof.
  split; [reflexivity|]. split; intros [message Hraised]; discriminate Hraised.
Qed.

(** C7, as the code has it.  The constructors of the caching unit and of
    the cache proxy check nothing: for every TTL, a negative one included,
    construction gives the object, with the TTL as passed and an empty
    table.  A caching unit with a negative TTL then serves requests, and
    whatever it stores is already expired: the expiry of a new entry is
    earlier than the clock reading of the call that stores it. *)
Theorem construction_accepts_any_ttl {RT : Runtime} {H : Type} {HH : HTTPHandler H}
  {S : Type} (handler : H) (real_service : S) (ttl_seconds : Z) :
  CachingMiddleware_init handler ttl_seconds
  = Built (Decorate (Caching ttl_seconds ∅) handler)
  /\ StockAPI.CachingProxy_init real_service ttl_seconds
     = Built {| StockAPI._real_service := real_service;
                StockAPI._cache_ttl := ttl_seconds;
                StockAPI._cache := ∅ |}
  /\ (ttl_seconds < 0 ->
      forall (cache : gmap string (loc * Z)) (request : HTTPRequest.t) (w : World)
             (o : Outcome) (self' : MiddlewareDecorator H) (w' : World),
        handle (Decorate (Caching ttl_seconds cache) handler) request w = (o, self', w') ->
        exists cache' : gmap string (loc * Z),
          middleware self' = Caching ttl_seconds cache'
          /\ forall (k : string) (r : loc) (e : Z),
              cache' !! k = Some (r, e) ->
              cache !! k = Some (r, e) \/ e < Middleware.clock (ticks w)).
Proof.
  split; [reflexivity|]. split; [reflexivity|].
  intros Hneg cache request w o self' w' Hhandle.
  destruct (caching_writes_only_successes _ _ _ _ _ _ _ _ Hhandle) as (cache' & Hself & Hnew).
  exists cache'. split; [exact Hself|].
  intros k r e Hk. destruct (Hnew k r e Hk) as [Hold|(_ & _ & ->)]; [by left|].
  right. unfold seconds. lia.
Qed.

End Construction.

Section ConstructionDemo.
Import Middleware.
#[local] Existing Instance demo_runtime.

(** [construction_accepts_any_ttl] at a TTL of -5: the unit is built, and
    a request for [/users] leaves an entry that expired 5 s before the
    call. *)
Lemma construction_accepts_any_ttl_witness :
  CachingMiddleware_init api_handler (-5) = Built (Decorate (Caching (-5) ∅) api_handler)
  /\ exists (o : Outcome) (self' : MiddlewareDecorator APIHandler) (w' : World)
            (cache' : gmap string (loc * Z)),
       handle (Decorate (Caching (-5) ∅) api_handler) get_users empty_world = (o, self', w')
       /\ middleware self' = Caching (-5) cache'
       /\ forall (k : string) (r : loc) (e : Z),
           cache' !! k = Some (r, e) -> e < Middleware.clock 0.
Proof.
  destruct (construction_accepts_any_ttl api_handler StockAPI.external_stock_api (-5))
    as (Hbuilt & _ & Hserves).
  split; [exact Hbuilt|].
  destruct (handle (Decorate (Caching (-5) ∅) api_handler) get_users empty_world)
    as [[o self'] w'] eqn:Hhandle.
  destruct (Hserves ltac:(reflexivity) ∅ get_users empty_world o self' w' Hhandle)
    as (cache' & Hself & Hnew).
  exists o, self', w', cache'. split; [reflexivity|]. split; [exact Hself|].
  intros k r e Hk. destruct (Hnew k r e Hk) as [Hold|Hlt]; [|exact Hlt].
  rewrite lookup_empty in Hold. discriminate Hold.
Defined.

End ConstructionDemo.

(** * Further properties of the code *)

(** ** What every unit does with what the wrapped handler gives *)

Section UnitLaws.
Import Middleware.
Context {RT : Runtime}.

Lemma status_mutate_execution_time (l l' : loc) (ms : Qc) (w : World) :
  HTTPResponse.status_code
    (deref (mutate l (fun r => HTTPResponse.set_execution_time_ms r ms) w) l')
  = HTTPResponse.status_code (deref w l').
Proof.
  unfold deref, mutate; simpl. rewrite !lookup_total_alt.
  destruct (decide (l = l')) as [<-|Hne].
  - rewrite lookup_alter_eq. by destruct (heap w !! l).
  - by rewrite lookup_alter_ne.
Qed.

Lemma body_mutate_execution_time (l l' : loc) (ms : Qc) (w : World) :
  HTTPResponse.body
    (deref (mutate l (fun r => HTTPResponse.set_execution_time_ms r ms) w) l')
  = HTTPResponse.body (deref w l').
Proof.
  unfold deref, mutate; simpl. rewrite !lookup_total_alt.
  destruct (decide (l = l')) as [<-|Hne].
  - rewrite lookup_alter_eq. by destruct (heap w !! l).
  - by rewrite lookup_alter_ne.
Qed.

Lemma status_add_cors_headers (allowed_origins : list string) (request : HTTPRequest.t)
  (l l' : loc) (w : World) :
  HTTPResponse.status_code (deref (add_cors_headers allowed_origins request l w) l')
  = HTTPResponse.status_code (deref w l').
Proof.
  unfold add_cors_headers. destruct (_ || _); [|reflexivity].
  rewrite deref_print. by rewrite !status_mutate_set_header.
Qed.

Lemma body_add_cors_headers (allowed_origins : list string) (request : HTTPRequest.t)
  (l l' : loc) (w : World) :
  HTTPResponse.body (deref (add_cors_headers allowed_origins request l w) l')
  = HTTPResponse.body (deref w l').
Proof.
  unfold add_cors_headers. destruct (_ || _); [|reflexivity].
  rewrite deref_print. by rewrite !body_mutate_set_header.
Qed.

(** The post-delegation logic of a unit gives back the outcome it is
    given, and leaves the status and the body of every response alone. *)
Lemma post_logic_keeps_outcome (u : Middleware) (request : HTTPRequest.t) (w : World)
  (request1 : HTTPRequest.t) (w1 : World)
  (post : Outcome -> World -> Outcome * Middleware * World) :
  pre_logic u request w = Delegate request1 w1 post ->
  forall (o : Outcome) (w2 : World),
    (post o w2).1.1 = o
    /\ (forall l, HTTPResponse.status_code (deref (post o w2).2 l)
                  = HTTPResponse.status_code (deref w2 l))
    /\ (forall l, HTTPResponse.body (deref (post o w2).2 l)
                  = HTTPResponse.body (deref w2 l))
    /\ ((forall l, o <> Returned l) -> heap (post o w2).2 = heap w2).
Proof.
  intros Hpre o w2.
  destruct u; simpl in Hpre; unfold now in Hpre; simpl in Hpre;
    repeat (case_match; simplify_eq); simplify_eq;
    try (destruct o as [r|s m|e]); simpl; repeat case_match; simpl;
    (split; [reflexivity|]); (split; [|split]);
    try (intros l0;
         rewrite ?deref_print, ?status_add_cors_headers, ?body_add_cors_headers,
           ?status_mutate_set_header, ?body_mutate_set_header,
           ?status_mutate_execution_time, ?body_mutate_execution_time;
         reflexivity);
    try reflexivity;
    intros Hraise; exfalso; eapply Hraise; reflexivity.
Qed.

(** X6.  Every unit passes an exception of the wrapped handler on as it is:
    the same exception leaves the unit, and no response object has been
    touched on the way out. *)
Theorem exceptions_pass_through {H : Type} {HH : HTTPHandler H}
  (u : Middleware) (h : H) (request : HTTPRequest.t) (w : World)
  (request1 : HTTPRequest.t) (w1 : World)
  (post : Outcome -> World -> Outcome * Middleware * World)
  (o : Outcome) (h' : H) (w2 : World) :
  pre_logic u request w = Delegate request1 w1 post ->
  handle h request1 w1 = (o, h', w2) ->
  (forall l, o <> Returned l) ->
  exists (u' : Middleware) (w3 : World),
    handle (Decorate u h) request w = (o, Decorate u' h', w3)
    /\ heap w3 = heap w2.
Proof.
  intros Hpre Hinner Hraise.
  destruct (post_logic_keeps_outcome u request w request1 w1 post Hpre o w2)
    as (Ho & _ & _ & Hheap).
  rewrite handle_pre_post. unfold run_phases; simpl. rewrite Hpre, Hinner.
  destruct (post o w2) as [[o' u'] w3]. simpl in *. subst o'.
  exists u', w3. split; [reflexivity|]. by apply Hheap.
Qed.


(** X8.  On a call whose datetime arithmetic stays among the datetimes, a
    unit that delegates returns the very response object the wrapped
    handler returned, and neither its status nor its body, nor those of
    any other response, have changed: units write headers and the
    execution time only. *)
Theorem units_keep_status_and_body {H : Type} {HH : HTTPHandler H}
  (epoch : Z) (u : Middleware) (h : H) (request : HTTPRequest.t) (w : World)
  (request1 : HTTPRequest.t) (w1 : World)
  (post : Outcome -> World -> Outcome * Middleware * World)
  (l : loc) (h' : H) (w2 : World) :
  within_datetimes epoch u (clock (ticks w)) ->
  pre_logic u request w = Delegate request1 w1 post ->
  handle h request1 w1 = (Returned l, h', w2) ->
  exists (u' : Middleware) (w3 : World),
    handle (Decorate u h) request w = (Returned l, Decorate u' h', w3)
    /\ (forall l', HTTPResponse.status_code (deref w3 l')
                   = HTTPResponse.status_code (deref w2 l'))
    /\ (forall l', HTTPResponse.body (deref w3 l') = HTTPResponse.body (deref w2 l')).
Proof.
  intros _ Hpre Hinner.
  destruct (post_logic_keeps_outcome u request w request1 w1 post Hpre (Returned l) w2)
    as (Ho & Hstatus & Hbody & _).
  rewrite handle_pre_post. unfold run_phases; simpl. rewrite Hpre, Hinner.
  destruct (post (Returned l) w2) as [[o' u'] w3]. simpl in *. subst o'.
  exists u', w3. by repeat split.
Qed.


End UnitLaws.

Section UnitLawsDemo.
Import Middleware.
#[local] Existing Instance demo_runtime.

(** [exceptions_pass_through] at the metrics unit around the API handler,
    for a POST whose body is not JSON. *)
Lemma exceptions_pass_through_witness :
  exists (u' : Middleware) (h' : APIHandler) (w3 : World),
    handle (Decorate (MetricsOf fresh_metrics) api_handler)
      (HTTPRequest.make POST "/users" ∅ (Some "{") [] ∅ 0 None) empty_world
    = (RaisedOther "JSONDecodeError", Decorate u' h', w3).
Proof.
  edestruct (exceptions_pass_through (MetricsOf fresh_metrics) api_handler
               (HTTPRequest.make POST "/users" ∅ (Some "{") [] ∅ 0 None) empty_world)
    as (u' & w3 & Hhandle & _).
  - simpl. reflexivity.
  - vm_compute. reflexivity.
  - intros l. discriminate.
  - eexists _, _, _. exact Hhandle.
Defined.


(** [units_keep_status_and_body] at the logging unit, for [GET /users]. *)
Lemma units_keep_status_and_body_witness :
  exists (l : loc) (u' : Middleware) (h' : APIHandler) (w3 : World),
    handle (Decorate Logging api_handler) get_users empty_world
    = (Returned l, Decorate u' h', w3)
    /\ HTTPResponse.status_code (deref w3 l) = 200.
Proof.
  edestruct (units_keep_status_and_body demo_epoch Logging api_handler get_users
               empty_world)
    as (u' & w3 & Hhandle & Hstatus & _).
  - repeat split; vm_compute; discriminate.
  - simpl. reflexivity.
  - vm_compute. reflexivity.
  - eexists _, _, _, _. split; [exact Hhandle|]. rewrite Hstatus. vm_compute. reflexivity.
Defined.


End UnitLawsDemo.

(** ** Requests, responses and the API handler *)

Section DataModel.
Import Middleware.
Context {RT : Runtime}.

(** X1.  Storing a header with [set_header] and reading it with [get_header],
    for header names made of ASCII characters: the value comes back under
    any casing of the name, and the other headers read as before. *)
Theorem set_header_then_get_header (request : HTTPRequest.t)
  (name1 name2 val : string) (dflt : option string) :
  PyStr.isascii name1 = true ->
  PyStr.isascii name2 = true ->
  HTTPRequest.get_header (HTTPRequest.set_header request name1 val) name2 dflt
  = if decide (PyStr.lower name1 = PyStr.lower name2) then Some val
    else HTTPRequest.get_header request name2 dflt.
Proof.
  intros _ _.
  unfold HTTPRequest.get_header, HTTPRequest.set_header; simpl.
  case_decide as Hcase.
  - by rewrite Hcase, lookup_insert_eq.
  - by rewrite lookup_insert_ne.
Qed.

(** X2.  [is_success] and [is_error] never hold together, and the statuses
    that are neither are those below 200 and those from 300 to 399. *)
Theorem success_excludes_error (response : HTTPResponse.t) :
  (HTTPResponse.is_success response = true -> HTTPResponse.is_error response = false)
  /\ (HTTPResponse.is_success response = false /\ HTTPResponse.is_error response = false
      <-> HTTPResponse.status_code response < 200
          \/ 300 <= HTTPResponse.status_code response < 400).
Proof.
  unfold HTTPResponse.is_success, HTTPResponse.is_error.
  destruct (200 <=? _) eqn:H200; destruct (_ <? 300) eqn:H300;
    destruct (400 <=? _) eqn:H400; simpl;
    rewrite ?Z.leb_le, ?Z.leb_gt, ?Z.ltb_lt, ?Z.ltb_ge in *;
    (split; [try done; intros _; lia|]); split; try lia; intros [? ?]; try done; lia.
Qed.


Lemma get_item_set_item (k k' : string) (v : Json.t) (fields : list (string * Json.t)) :
  Json.get_item k' (Json.set_item k v fields)
  = if String.eqb k' k then Some v else Json.get_item k' fields.
Proof.
  induction fields as [|[k0 v0] fields IH]; simpl.
  - by destruct (String.eqb k' k).
  - destruct (String.eqb_spec k k0) as [->|Hne]; simpl.
    + by destruct (String.eqb_spec k' k0).
    + rewrite IH. destruct (String.eqb_spec k' k0) as [->|Hne'].
      * destruct (String.eqb_spec k0 k) as [->|_]; [done|reflexivity].
      * reflexivity.
Qed.



End DataModel.

(** ** Authentication and rate limiting *)

Section Guards.
Import Middleware.
Context {RT : Runtime}.

(** X10.  A request with a valid token is delegated, once, with its context
    extended: [user_id] is ["user_123"] for the token ["secret-token-123"]
    and ["admin_456"] for every other valid token, and [is_admin] tells
    whether the token starts with ["admin"].  What the wrapped handler gives
    is what the unit gives. *)
Theorem authentication_admits_valid_token {H : Type} {HH : HTTPHandler H}
  (valid_tokens : gset string) (h : H) (n : nat) (request : HTTPRequest.t) (w : World)
  (token : string) :
  credential request = Some token ->
  token ∈ valid_tokens ->
  let user_id := if String.eqb token "secret-token-123" then "user_123" else "admin_456" in
  let request' :=
    HTTPRequest.set_context (HTTPRequest.set_context request "user_id" (PStr user_id))
      "is_admin" (PBool (PyStr.startswith token "admin")) in
  exists (o : Outcome) (h' : H) (w' : World),
    handle h request' (print (EvAuthOk user_id) (print EvAuthChecking w)) = (o, h', w')
    /\ handle (Decorate (Authentication valid_tokens) (Count n h)) request w
       = (o, Decorate (Authentication valid_tokens) (Count (S n) h'), w')
    /\ HTTPRequest.context request' !! "user_id" = Some (PStr user_id)
    /\ HTTPRequest.context request' !! "is_admin"
       = Some (PBool (PyStr.startswith token "admin")).
Proof.
  intros Hcred Hvalid user_id request'. unfold credential in Hcred.
  destruct (PyStr.truthy _) eqn:Htruthy; [|discriminate]. injection Hcred as Htoken.
  destruct (handle h request' (print (EvAuthOk user_id) (print EvAuthChecking w)))
    as [[o h'] w'] eqn:Hinner.
  exists o, h', w'. split; [reflexivity|]. split; [|split].
  2: { unfold request'; simpl. rewrite lookup_insert_ne by done. apply lookup_insert_eq. }
  2: { unfold request'; simpl. apply lookup_insert_eq. }
  unfold handle at 1, MiddlewareDecorator_handler, MiddlewareDecorator_handle; simpl.
  unfold AuthenticationMiddleware_handle.
  rewrite Htruthy, Htoken. simpl.
  rewrite bool_decide_eq_true_2 by exact Hvalid. simpl.
  fold user_id. fold request'.
  by rewrite (counting_handle n h request' _ o h' w' Hinner).
Qed.

Lemma replace_without_occurrence (old new s : string) :
  PyStr.contains old s = false -> PyStr.replace_from old new 0 s = s.
Proof.
  induction s as [|c s IH]; [reflexivity|].
  cbn [PyStr.contains PyStr.replace_from].
  intros Hnone. apply orb_false_iff in Hnone as [Hprefix Hrest].
  rewrite Hprefix. by rewrite IH.
Qed.

(** X11.  The [Bearer ] prefix is optional: a token that is sent bare in the
    [Authorization] header is read as the same credential as when it is
    sent after [Bearer ]. *)
Theorem bearer_prefix_is_optional (request : HTTPRequest.t) (token : string) :
  token <> "" ->
  PyStr.contains "Bearer " token = false ->
  credential (HTTPRequest.set_header request "Authorization" token) = Some token
  /\ credential (HTTPRequest.set_header request "Authorization" ("Bearer " +:+ token))
     = Some token.
Proof.
  intros Hnonempty Hnone. unfold credential.
  rewrite !get_header_set_header by reflexivity.
  split.
  - destruct token as [|c token]; [done|]. simpl PyStr.truthy. cbv iota.
    unfold PyStr.replace. by rewrite replace_without_occurrence.
  - assert (forall s, String.prefix "" s = true) as Hempty by (by intros []).
    unfold PyStr.replace. cbv [String.append]. cbn. rewrite Hempty.
    cbv [String.append]. by rewrite replace_without_occurrence.
Qed.

(** X12.  A call of the rate limiter touches the log of the identity of the
    request only: what is logged for every other identity stays. *)
Theorem rate_limit_identities_are_independent {H : Type} {HH : HTTPHandler H}
  (max_requests window_seconds : Z) (request_log : gmap PyVal (list (Z * Z)))
  (h : H) (request : HTTPRequest.t) (w : World) :
  exists (o : Outcome) (request_log' : gmap PyVal (list (Z * Z))) (h' : H) (w' : World),
    handle (Decorate (RateLimiting max_requests window_seconds request_log) h) request w
    = (o, Decorate (RateLimiting max_requests window_seconds request_log') h', w')
    /\ forall uid : PyVal, uid <> identity request -> request_log' !! uid = request_log !! uid.
Proof.
  unfold handle at 1, MiddlewareDecorator_handler, MiddlewareDecorator_handle; simpl.
  unfold RateLimitingMiddleware_handle, respond. fold (identity request). simpl.
  destruct (_ <=? _); simpl.
  - eexists _, _, _, _. split; [reflexivity|].
    intros uid Huid. by rewrite lookup_insert_ne.
  - destruct (handle h request _) as [[o h'] w']; eexists _, _, _, _;
      (split; [reflexivity|]); intros uid Huid; by rewrite !lookup_insert_ne.
Qed.

Lemma filter_all_expired (cutoff : Z) (entries : list (Z * Z)) :
  Forall (fun e => e.1 <= cutoff) entries ->
  filter (fun e => cutoff < e.1) entries = [].
Proof.
  induction 1 as [|e entries He _ IH]; [reflexivity|].
  rewrite filter_cons_False by lia. exact IH.
Qed.

(** X13.  The window slides: once every request logged for an identity is a
    full window old or older (one stamped exactly [window_seconds] before
    now included), the next request of that identity is let through
    however many were logged, and the log of the identity is that one
    request.  Stated for the calls on which the start of the window,
    [now - timedelta(seconds=window_seconds)], is a datetime. *)
Theorem rate_limit_window_slides {H : Type} {HH : HTTPHandler H}
  (epoch : Z)
  (max_requests window_seconds : Z) (request_log : gmap PyVal (list (Z * Z)))
  (h : H) (n : nat) (request : HTTPRequest.t) (w : World) :
  within_datetimes epoch (RateLimiting max_requests window_seconds request_log)
    (clock (ticks w)) ->
  0 < max_requests ->
  Forall (fun e => e.1 <= clock (ticks w) - seconds window_seconds)
    (default [] (request_log !! identity request)) ->
  exists (o : Outcome) (h' : H) (w1 w' : World),
    handle h request w1 = (o, h', w')
    /\ handle (Decorate (RateLimiting max_requests window_seconds request_log) (Count n h))
         request w
       = (o,
          Decorate
            (RateLimiting max_requests window_seconds
               (<[identity request := [(clock (ticks w), 1)]]> request_log))
            (Count (S n) h'),
          w').
Proof.
  intros _ Hmax Hold.
  set (w1 := print (EvRateAllowed (0 + 1) max_requests)
               (now (print (EvRateChecking (identity request)) w)).2).
  destruct (handle h request w1) as [[o h'] w'] eqn:Hinner.
  exists o, h', w1, w'. split; [exact Hinner|].
  apply (counting_handle n) in Hinner.
  unfold handle at 1, MiddlewareDecorator_handler, MiddlewareDecorator_handle; simpl.
  unfold RateLimitingMiddleware_handle. fold (identity request). simpl.
  rewrite filter_all_expired by exact Hold. simpl.
  rewrite (proj2 (Z.leb_gt _ _) Hmax).
  rewrite insert_insert_eq.
  unfold w1 in Hinner. simpl in Hinner. by rewrite Hinner.
Qed.

(** X14.  At the limit the request is refused with a new 429 response that
    tells the window as [retry_after]; the wrapped handler is not called,
    and the refused request is not logged: the log of the identity is what
    was left of it inside the window.  Stated for the calls on which the
    start of the window, [now - timedelta(seconds=window_seconds)], is a
    datetime. *)
Theorem rate_limit_refusal_is_not_logged {H : Type} {HH : HTTPHandler H}
  (epoch : Z)
  (max_requests window_seconds : Z) (request_log : gmap PyVal (list (Z * Z)))
  (h : H) (n : nat) (request : HTTPRequest.t) (w : World) :
  within_datetimes epoch (RateLimiting max_requests window_seconds request_log)
    (clock (ticks w)) ->
  let entries :=
    filter (fun e => clock (ticks w) - seconds window_seconds < e.1)
      (default [] (request_log !! identity request)) in
  max_requests <= recent_count entries ->
  exists (l : loc) (w' : World),
    handle (Decorate (RateLimiting max_requests window_seconds request_log) (Count n h))
      request w
    = (Returned l,
       Decorate
         (RateLimiting max_requests window_seconds
            (<[identity request := entries]> request_log))
         (Count n h),
       w')
    /\ heap w !! l = None
    /\ deref w' l
       = HTTPResponse.new 429
           (Json.dumps (Json.Obj [("error", Json.Str "Rate limit exceeded");
                                  ("retry_after", Json.Int window_seconds)])).
Proof.
  intros _ entries Hlimit.
  unfold handle at 1, MiddlewareDecorator_handler, MiddlewareDecorator_handle; simpl.
  unfold RateLimitingMiddleware_handle, respond. fold (identity request). simpl.
  fold entries. rewrite (proj2 (Z.leb_le _ _) Hlimit). simpl.
  eexists _, _. split; [reflexivity|].
  split; [apply not_elem_of_dom, is_fresh|].
  unfold deref; simpl. by rewrite lookup_total_insert_eq.
Qed.

End Guards.

(** ** Compression and CORS *)

Section Transformers.
Import Middleware.
Context {RT : Runtime}.

(** Without gzip support, or with a body of 100 characters or less, the
    compression unit passes the response on untouched. *)
Lemma compression_skip_leaves_response {H : Type} {HH : HTTPHandler H}
  (h : H) (request : HTTPRequest.t) (w : World) (l : loc) (h' : H) (w2 : World) :
  handle h request w = (Returned l, h', w2) ->
  (PyStr.contains "gzip"
     (PyStr.lower (default "" (HTTPRequest.get_header request "accept-encoding" (Some ""))))
   && Nat.ltb 100 (String.length (HTTPResponse.body (deref w2 l)))) = false ->
  handle (Decorate Compression h) request w
  = (Returned l, Decorate Compression h', print EvCompressSkip w2).
Proof.
  intros Hinner Hskip.
  unfold handle at 1, MiddlewareDecorator_handler, MiddlewareDecorator_handle; simpl.
  unfold CompressionMiddleware_handle. rewrite Hinner. simpl. by rewrite Hskip.
Qed.

Lemma mutate_is_Some (l l' : loc) (f : HTTPResponse.t -> HTTPResponse.t) (w : World) :
  is_Some (heap w !! l) -> is_Some (heap (mutate l' f w) !! l).
Proof.
  intros [r Hr]. unfold mutate; simpl.
  destruct (decide (l' = l)) as [->|Hne].
  - rewrite lookup_alter_eq, Hr. by eexists.
  - rewrite lookup_alter_ne by done. by eexists.
Qed.

(** X15.  The compression unit never changes a body.  It marks the response as
    gzip, with the original and the compressed size, exactly when the
    request's [accept-encoding] header contains [gzip] in any casing and the
    body is longer than 100 characters; a body of 100 characters or less
    gets no header at all. *)
Theorem compression_threshold {H : Type} {HH : HTTPHandler H}
  (h : H) (request : HTTPRequest.t) (w : World) (l : loc) (h' : H) (w2 : World) :
  handle h request w = (Returned l, h', w2) ->
  is_Some (heap w2 !! l) ->
  let size := String.length (HTTPResponse.body (deref w2 l)) in
  let accepts_gzip :=
    PyStr.contains "gzip"
      (PyStr.lower
         (default "" (HTTPRequest.get_header request "accept-encoding" (Some "")))) in
  exists w3 : World,
    handle (Decorate Compression h) request w = (Returned l, Decorate Compression h', w3)
    /\ HTTPResponse.body (deref w3 l) = HTTPResponse.body (deref w2 l)
    /\ HTTPResponse.headers (deref w3 l)
       = if accepts_gzip && Nat.ltb 100 size
         then <["x-compressed-size" := pretty (int_times_0_3 size)]>
                (<["x-original-size" := pretty size]>
                   (<["content-encoding" := "gzip"]> (HTTPResponse.headers (deref w2 l))))
         else HTTPResponse.headers (deref w2 l).
Proof.
  intros Hinner Hl size accepts_gzip.
  unfold handle at 1, MiddlewareDecorator_handler, MiddlewareDecorator_handle; simpl.
  unfold CompressionMiddleware_handle. rewrite Hinner. simpl.
  fold accepts_gzip. fold size.
  destruct (accepts_gzip && Nat.ltb 100 size); eexists; (split; [reflexivity|]).
  - split.
    + by rewrite deref_print, !body_mutate_set_header.
    + rewrite deref_print.
      rewrite !deref_mutate; [reflexivity|..]; repeat apply mutate_is_Some; exact Hl.
  - by split.
Qed.

(** X16.  The CORS unit never turns a request away.  A response of the wrapped
    handler gets the CORS headers when the request's origin (["*"] when the
    header is missing) is in the allowed list or the list holds ["*"], and
    then [access-control-allow-origin] is the request's own origin, under a
    wildcard too; otherwise the response is passed on exactly as it
    came. *)
Theorem cors_marks_or_passes {H : Type} {HH : HTTPHandler H}
  (allowed_origins : list string) (h : H) (request : HTTPRequest.t) (w : World)
  (l : loc) (h' : H) (w2 : World) :
  (bool_decide (HTTPRequest.method request = GET)
   && String.eqb (HTTPRequest.path request) "OPTIONS") = false ->
  handle h request w = (Returned l, h', w2) ->
  is_Some (heap w2 !! l) ->
  let origin := default "*" (HTTPRequest.get_header request "origin" (Some "*")) in
  exists w3 : World,
    handle (Decorate (CORS allowed_origins) h) request w
    = (Returned l, Decorate (CORS allowed_origins) h', w3)
    /\ if bool_decide (origin ∈ allowed_origins) || bool_decide ("*" ∈ allowed_origins)
       then HTTPResponse.headers (deref w3 l)
            = <["access-control-max-age" := "3600"]>
                (<["access-control-allow-headers" := "Content-Type, Authorization"]>
                   (<["access-control-allow-methods" := "GET, POST, PUT, DELETE"]>
                      (<["access-control-allow-origin" := origin]>
                         (HTTPResponse.headers (deref w2 l)))))
       else w3 = w2.
Proof.
  intros Hnormal Hinner Hl origin.
  unfold handle at 1, MiddlewareDecorator_handler, MiddlewareDecorator_handle; simpl.
  unfold CORSMiddleware_handle. rewrite Hnormal, Hinner.
  eexists. split; [reflexivity|].
  unfold add_cors_headers. fold origin.
  destruct (_ || _); [|reflexivity].
  rewrite deref_print.
  rewrite !deref_mutate; [reflexivity|..]; repeat apply mutate_is_Some; exact Hl.
Qed.

(** X17.  A GET request whose path is ["OPTIONS"] is what the CORS unit takes
    for a preflight: it answers with a new, empty 204 response and does
    not call the wrapped handler. *)
Theorem cors_preflight_answers_itself {H : Type} {HH : HTTPHandler H}
  (allowed_origins : list string) (h : H) (n : nat) (request : HTTPRequest.t) (w : World) :
  HTTPRequest.method request = GET ->
  HTTPRequest.path request = "OPTIONS" ->
  exists (l : loc) (w' : World),
    handle (Decorate (CORS allowed_origins) (Count n h)) request w
    = (Returned l, Decorate (CORS allowed_origins) (Count n h), w')
    /\ heap w !! l = None
    /\ HTTPResponse.status_code (deref w' l) = 204
    /\ HTTPResponse.body (deref w' l) = "".
Proof.
  intros Hget Hpath.
  unfold handle at 1, MiddlewareDecorator_handler, MiddlewareDecorator_handle; simpl.
  unfold CORSMiddleware_handle.
  rewrite bool_decide_eq_true_2 by exact Hget. rewrite Hpath. simpl.
  eexists _, _. split; [reflexivity|].
  split; [apply not_elem_of_dom, is_fresh|].
  rewrite status_add_cors_headers, body_add_cors_headers.
  unfold deref; simpl. by rewrite lookup_total_insert_eq.
Qed.

End Transformers.

(** ** Caching and metrics *)

Section Bookkeeping.
Import Middleware.
Context {RT : Runtime}.

(** X18.  Store, then serve.  When a GET request finds no usable entry and the
    wrapped handler answers with a success, that response is returned and
    stored; from then on, while the clock reads less than the time of that
    call plus the TTL, every GET request with the same path and the same
    query parameters in the same order of insertion (the key is made from
    the text of the dict; other headers, body or context do not matter) is
    answered with that same response object, without a call of the wrapped
    handler.  Stated for the calls on which the expiry,
    [now + timedelta(seconds=ttl_seconds)], is a datetime. *)
Theorem caching_serves_what_it_stored {H : Type} {HH : HTTPHandler H}
  (epoch : Z)
  (ttl_seconds : Z) (cache : gmap string (loc * Z)) (h : H) (n : nat)
  (request : HTTPRequest.t) (w : World) (l : loc) (h' : H) (w2 : World) :
  within_datetimes epoch (Caching ttl_seconds cache) (clock (ticks w)) ->
  HTTPRequest.method request = GET ->
  stale cache (_generate_cache_key request) (clock (ticks w)) ->
  handle h request (world_at_fetch cache request w) = (Returned l, h', w2) ->
  HTTPResponse.is_success (deref w2 l) = true ->
  exists (cache1 : gmap string (loc * Z)) (w1 : World),
    handle (Decorate (Caching ttl_seconds cache) (Count n h)) request w
    = (Returned l, Decorate (Caching ttl_seconds cache1) (Count (S n) h'), w1)
    /\ forall (request2 : HTTPRequest.t) (w3 : World),
        HTTPRequest.method request2 = GET ->
        HTTPRequest.path request2 = HTTPRequest.path request ->
        HTTPRequest.query_params request2 = HTTPRequest.query_params request ->
        clock (ticks w3) < clock (ticks w) + seconds ttl_seconds ->
        exists w4 : World,
          handle (Decorate (Caching ttl_seconds cache1) (Count (S n) h')) request2 w3
          = (Returned l, Decorate (Caching ttl_seconds cache1) (Count (S n) h'), w4).
Proof.
  intros _ Hget Hstale Hinner Hsuccess.
  destruct (caching_miss ttl_seconds cache (Count n h) request w (Returned l)
              (Count (S n) h') w2 Hget Hstale) as (w1 & Hhandle & _).
  { by apply counting_handle. }
  unfold cache_after in Hhandle. rewrite Hsuccess in Hhandle.
  eexists _, w1. split; [exact Hhandle|].
  intros request2 w3 Hget2 Hpath Hquery Hfresh.
  eexists. apply caching_hit with (expiry := clock (ticks w) + seconds ttl_seconds);
    [exact Hget2| |exact Hfresh].
  rewrite (cache_key_deterministic request2 request) by congruence.
  apply lookup_insert_eq.
Qed.

(** X19.  The metrics unit counts a returned response as successful when its
    status is in 200..299 and as failed otherwise, so that a redirect
    (300..399), which [is_error] does not flag, is counted as failed; the
    counter of that status grows by one and no other counter moves. *)
Theorem metrics_counts_non_2xx_as_failed {H : Type} {HH : HTTPHandler H}
  (m : Metrics) (h : H) (request : HTTPRequest.t) (w : World)
  (l : loc) (h' : H) (w2 : World) :
  handle h request (now w).2 = (Returned l, h', w2) ->
  let status := HTTPResponse.status_code (deref w2 l) in
  let success := (200 <=? status) && (status <? 300) in
  exists (m' : Metrics) (w3 : World),
    handle (Decorate (MetricsOf m) h) request w
    = (Returned l, Decorate (MetricsOf m') h', w3)
    /\ total_requests m' = total_requests m + 1
    /\ successful_requests m' = successful_requests m + (if success then 1 else 0)
    /\ failed_requests m' = failed_requests m + (if success then 0 else 1)
    /\ status_codes m' !! status = Some (default 0 (status_codes m !! status) + 1)
    /\ forall status', status' <> status -> status_codes m' !! status' = status_codes m !! status'.
Proof.
  intros Hinner status success.
  unfold handle at 1, MiddlewareDecorator_handler, MiddlewareDecorator_handle; simpl.
  unfold MetricsMiddleware_handle. simpl in *. rewrite Hinner. simpl.
  eexists _, _. split; [reflexivity|]. simpl.
  unfold HTTPResponse.is_success.
  change (HTTPResponse.status_code (deref _ l)) with status. fold success.
  split; [reflexivity|].
  split; [destruct success; lia|].
  split; [destruct success; lia|].
  unfold incr. split; [apply lookup_insert_eq|].
  intros status' Hne. by rewrite lookup_insert_ne.
Qed.

Lemma inject_Z_nonzero (n : Z) : n <> 0 -> Q2Qc (inject_Z n) <> 0%Qc.
Proof.
  intros Hn Hzero. apply Hn.
  apply Q2Qc_eq_iff in Hzero. unfold Qeq in Hzero. simpl in Hzero. lia.
Qed.

(** X20.  The running average kept per endpoint is exact: if the average times
    the count is the sum of the latencies recorded so far, it is so again
    after one more latency, the count having grown by one; the statistics
    of the other endpoints are not touched. *)
Theorem running_average_is_the_mean (endpoint : string) (latency : Qc)
  (stats : gmap string EndpointStats) (total : Qc) :
  let before := default {| count := 0; avg_latency_ms := 0%Qc |} (stats !! endpoint) in
  0 <= count before ->
  (avg_latency_ms before * Q2Qc (inject_Z (count before)))%Qc = total ->
  exists after : EndpointStats,
    record_endpoint endpoint latency stats !! endpoint = Some after
    /\ count after = count before + 1
    /\ (avg_latency_ms after * Q2Qc (inject_Z (count after)))%Qc = (total + latency)%Qc
    /\ forall other, other <> endpoint ->
         record_endpoint endpoint latency stats !! other = stats !! other.
Proof.
  intros before Hcount Htotal.
  unfold record_endpoint. fold before.
  eexists. split; [apply lookup_insert_eq|]. simpl.
  split; [reflexivity|].
  split; [|intros other Hne; by rewrite lookup_insert_ne].
  rewrite Z.add_simpl_r, Htotal.
  pose proof (inject_Z_nonzero (count before + 1) ltac:(lia)) as Hnz.
  field. exact Hnz.
Qed.

End Bookkeeping.

(** ** The caching proxy and its client *)

Section ProxyLaws.
Import StockAPI.
Context {CK : Clock} {Svc : Type} {SS : StockService Svc}.

(** X21.  Fetch, then serve.  When the proxy has no usable entry for a ticker
    and the real service answers, the proxy returns that answer and saves
    it; from then on, while the clock reads less than the answer's own
    timestamp plus the TTL, the proxy returns the saved answer and the real
    service is not called. *)
Theorem proxy_serves_what_it_fetched (real : Svc) (n : nat) (ttl : Z)
  (cache : gmap string StockData) (symbol : string) (w : World)
  (data : StockData) (real' : Svc) (w2 : World) :
  let self :=
    {| _real_service := CountCalls n real; _cache_ttl := ttl; _cache := cache |} in
  let self1 :=
    {| _real_service := CountCalls (S n) real'; _cache_ttl := ttl;
       _cache := <[symbol := data]> cache |} in
  proxy_stale self symbol (clock (ticks w)) ->
  get_stock_price real symbol (world_at_refresh self symbol w) = (Fetched data, real', w2) ->
  get_stock_price self symbol w = (Fetched data, self1, w2)
  /\ forall w3 : World,
      clock (ticks w3) < timestamp data + Middleware.seconds ttl ->
      exists w4 : World, get_stock_price self1 symbol w3 = (Fetched data, self1, w4).
Proof.
  intros self self1 Hstale Hreal. split.
  - unfold get_stock_price at 1, CachingProxy_service, CachingProxy_get_stock_price.
    unfold proxy_stale, world_at_refresh in *. simpl in *.
    destruct (cache !! symbol) as [item|] eqn:Hitem.
    + rewrite (proj2 (Z.ltb_ge _ _)) by lia.
      unfold refresh. simpl.
      unfold get_stock_price at 1, CountingService_service. simpl. by rewrite Hreal.
    + unfold refresh. simpl.
      unfold get_stock_price at 1, CountingService_service. simpl. by rewrite Hreal.
  - intros w3 Hfresh. apply proxy_hit; [|exact Hfresh].
    simpl. apply lookup_insert_eq.
Qed.

(** X22.  When the refresh fails, the exception of the real service leaves the
    proxy, and the table is as it was: a stale entry is not removed. *)
Theorem proxy_failed_refresh_keeps_table (real : Svc) (ttl : Z)
  (cache : gmap string StockData) (symbol : string) (w : World)
  (e : string) (real' : Svc) (w2 : World) :
  let self := {| _real_service := real; _cache_ttl := ttl; _cache := cache |} in
  proxy_stale self symbol (clock (ticks w)) ->
  get_stock_price real symbol (world_at_refresh self symbol w) = (Raised e, real', w2) ->
  get_stock_price self symbol w
  = (Raised e, {| _real_service := real'; _cache_ttl := ttl; _cache := cache |}, w2).
Proof.
  intros self Hstale Hreal.
  unfold get_stock_price at 1, CachingProxy_service, CachingProxy_get_stock_price.
  unfold proxy_stale, world_at_refresh in *. simpl in *.
  destruct (cache !! symbol) as [item|] eqn:Hitem.
  - rewrite (proj2 (Z.ltb_ge _ _)) by lia. unfold refresh. simpl. by rewrite Hreal.
  - unfold refresh. simpl. by rewrite Hreal.
Qed.

(** X23.  The client on a proxy that holds a fresh entry: it prints the ticker
    and the price of the saved data and the time between its two readings
    of the clock, and the real service is not called. *)
Theorem client_served_from_cache (self : CachingProxy Svc) (symbol : string) (w : World)
  (item : StockData) :
  _cache self !! symbol = Some item ->
  clock (S (ticks w)) < timestamp item + Middleware.seconds (_cache_ttl self) ->
  exists w' : World,
    client_app self symbol w
    = (Some [EvResult (ticker item) (price item);
             EvTimeTaken (clock (S (S (ticks w))) - clock (ticks w))],
       self, w').
Proof.
  intros Hitem Hfresh.
  unfold client_app. simpl.
  unfold get_stock_price at 1, CachingProxy_service, CachingProxy_get_stock_price. simpl.
  rewrite Hitem. rewrite (proj2 (Z.ltb_lt _ _)) by lia. simpl. eauto.
Qed.

End ProxyLaws.

Section RealService.
Import StockAPI.
Context {CK : Clock}.

(** X24.  A new proxy in front of the external service, asked for any ticker:
    the service answers (it never raises), with the mock price of the
    ticker, which is 0 for an unknown one, stamped with the reading of the
    clock that follows the proxy's own; the answer is what the proxy
    returns, and it is the whole of its table afterwards. *)
Theorem cold_proxy_fetches_and_saves (ttl : Z) (symbol : string) (w : World) :
  let data :=
    {| ticker := symbol; price := mock_prices symbol; timestamp := clock (S (ticks w)) |} in
  exists w1 : World,
    get_stock_price
      {| _real_service := external_stock_api; _cache_ttl := ttl; _cache := ∅ |} symbol w
    = (Fetched data,
       {| _real_service := external_stock_api; _cache_ttl := ttl;
          _cache := {[ symbol := data ]} |},
       w1)
    /\ ticks w1 = S (S (ticks w))
    /\ (symbol ∉ ["AAPL"; "GOOGL"; "MSFT"; "TSLA"] -> price data = 0%Qc).
Proof.
  intros data.
  unfold get_stock_price at 1, CachingProxy_service, CachingProxy_get_stock_price. simpl.
  rewrite lookup_empty. unfold refresh. simpl.
  eexists. split; [reflexivity|]. split; [reflexivity|].
  intros Hunknown. unfold mock_prices.
  simpl.
  destruct (String.eqb_spec symbol "AAPL") as [->|_]; [exfalso; set_solver|].
  destruct (String.eqb_spec symbol "GOOGL") as [->|_]; [exfalso; set_solver|].
  destruct (String.eqb_spec symbol "MSFT") as [->|_]; [exfalso; set_solver|].
  destruct (String.eqb_spec symbol "TSLA") as [->|_]; [exfalso; set_solver|].
  reflexivity.
Qed.

End RealService.

(** ** The further properties on concrete inputs *)

Section FurtherDemo.
Import Middleware.
#[local] Existing Instance demo_runtime.

Lemma set_header_then_get_header_witness :
  HTTPRequest.get_header
    (HTTPRequest.set_header get_users "Authorization" "Bearer secret-token-123")
    "AUTHORIZATION" None
  = Some "Bearer secret-token-123".
Proof.
  etrans; [apply set_header_then_get_header; reflexivity | reflexivity].
Defined.

Lemma success_excludes_error_witness :
  HTTPResponse.is_error (HTTPResponse.new 204 "") = false
  /\ HTTPResponse.is_success (HTTPResponse.new 302 "") = false
  /\ HTTPResponse.is_error (HTTPResponse.new 302 "") = false.
Proof.
  destruct (success_excludes_error (HTTPResponse.new 204 "")) as [Hsuccess _].
  destruct (success_excludes_error (HTTPResponse.new 302 "")) as [_ [_ Hneither]].
  split; [apply Hsuccess; reflexivity|].
  apply Hneither. right. simpl. lia.
Defined.




Lemma authentication_admits_valid_token_witness :
  exists (o : Outcome) (h' : APIHandler) (w' : World),
    handle (Decorate (Authentication demo_tokens) (Count 0 api_handler))
      (request_with_headers GET "/users" [("authorization", "Bearer admin-token-456")])
      empty_world
    = (o, Decorate (Authentication demo_tokens) (Count 1 h'), w').
Proof.
  destruct (authentication_admits_valid_token demo_tokens api_handler 0
              (request_with_headers GET "/users" [("authorization", "Bearer admin-token-456")])
              empty_world "admin-token-456")
    as (o & h' & w' & _ & Hhandle & _); [vm_compute; reflexivity | vm_compute; reflexivity |].
  exists o, h', w'. exact Hhandle.
Defined.

Lemma bearer_prefix_is_optional_witness :
  credential (HTTPRequest.set_header get_users "Authorization" "secret-token-123")
  = Some "secret-token-123".
Proof.
  destruct (bearer_prefix_is_optional get_users "secret-token-123") as [Hbare _];
    [discriminate | reflexivity | exact Hbare].
Defined.

Lemma rate_limit_identities_are_independent_witness :
  exists (o : Outcome) (request_log' : gmap PyVal (list (Z * Z)))
         (h' : APIHandler) (w' : World),
    handle (Decorate (RateLimiting 5 60 {[ PStr "user_123" := [(0, 1)] ]}) api_handler)
      get_users empty_world
    = (o, Decorate (RateLimiting 5 60 request_log') h', w')
    /\ request_log' !! PStr "user_123" = Some [(0, 1)].
Proof.
  destruct (rate_limit_identities_are_independent 5 60 {[ PStr "user_123" := [(0, 1)] ]}
              api_handler get_users empty_world)
    as (o & log' & h' & w' & Hhandle & Hothers).
  exists o, log', h', w'. split; [exact Hhandle|].
  rewrite Hothers; [reflexivity | vm_compute; discriminate].
Defined.

Lemma rate_limit_window_slides_witness :
  exists (o : Outcome) (h' : APIHandler) (w' : World),
    handle (Decorate (RateLimiting 1 60 {[ PStr "anonymous" := [(0, 1)] ]})
              (Count 0 api_handler)) get_users (world_at 300)
    = (o,
       Decorate (RateLimiting 1 60 (<[PStr "anonymous" := [(clock (ticks (world_at 300)), 1)]]>
                                      {[ PStr "anonymous" := [(0, 1)] ]}))
         (Count 1 h'),
       w').
Proof.
  destruct (rate_limit_window_slides demo_epoch 1 60 {[ PStr "anonymous" := [(0, 1)] ]}
              api_handler 0 get_users (world_at 300))
    as (o & h' & w1 & w' & _ & Hhandle).
  - repeat split; vm_compute; discriminate.
  - reflexivity.
  - constructor; [vm_compute; discriminate | constructor].
  - exists o, h', w'. exact Hhandle.
Defined.

Lemma rate_limit_refusal_is_not_logged_witness :
  exists (l : loc) (w' : World),
    handle (Decorate (RateLimiting 1 60 {[ PStr "anonymous" := [(0, 1)] ]})
              (Count 0 api_handler)) get_users (world_at 1)
    = (Returned l,
       Decorate (RateLimiting 1 60 (<[PStr "anonymous" := [(0, 1)]]>
                                      {[ PStr "anonymous" := [(0, 1)] ]}))
         (Count 0 api_handler),
       w')
    /\ HTTPResponse.status_code (deref w' l) = 429.
Proof.
  destruct (rate_limit_refusal_is_not_logged demo_epoch 1 60
              {[ PStr "anonymous" := [(0, 1)] ]} api_handler 0 get_users (world_at 1))
    as (l & w' & Hhandle & _ & Hderef).
  - repeat split; vm_compute; discriminate.
  - vm_compute. discriminate.
  - exists l, w'. split; [exact Hhandle|]. rewrite Hderef. reflexivity.
Defined.

Lemma compression_threshold_witness :
  exists (l : loc) (h' : APIHandler) (w3 : World),
    handle (Decorate Compression api_handler)
      (request_with_headers GET "/users" [("accept-encoding", "GZIP, deflate")]) empty_world
    = (Returned l, Decorate Compression h', w3)
    /\ HTTPResponse.headers (deref w3 l) !! "content-encoding" = Some "gzip".
Proof.
  edestruct (compression_threshold api_handler
               (request_with_headers GET "/users" [("accept-encoding", "GZIP, deflate")])
               empty_world) as (w3 & Hhandle & _ & Hheaders).
  - vm_compute. reflexivity.
  - eexists. vm_compute. reflexivity.
  - eexists _, _, _. split; [exact Hhandle|]. rewrite Hheaders. vm_compute. reflexivity.
Defined.

Lemma cors_marks_or_passes_witness :
  exists (l : loc) (h' : APIHandler) (w3 : World),
    handle (Decorate (CORS ["https://example.com"; "*"]) api_handler)
      (request_with_headers GET "/users" [("origin", "https://elsewhere.org")]) empty_world
    = (Returned l, Decorate (CORS ["https://example.com"; "*"]) h', w3)
    /\ HTTPResponse.headers (deref w3 l) !! "access-control-allow-origin"
       = Some "https://elsewhere.org".
Proof.
  edestruct (cors_marks_or_passes ["https://example.com"; "*"] api_handler
               (request_with_headers GET "/users" [("origin", "https://elsewhere.org")])
               empty_world) as (w3 & Hhandle & Hheaders).
  - reflexivity.
  - vm_compute. reflexivity.
  - eexists. vm_compute. reflexivity.
  - eexists _, _, _. split; [exact Hhandle|].
    match type of Hheaders with
    | (if ?c then _ else _) => replace c with true in Hheaders by (vm_compute; reflexivity)
    end.
    rewrite Hheaders. rewrite !lookup_insert_ne by discriminate. apply lookup_insert_eq.
Defined.

Lemma cors_preflight_answers_itself_witness :
  exists (l : loc) (w' : World),
    handle (Decorate (CORS ["*"]) (Count 0 api_handler))
      (request_with_headers GET "OPTIONS" []) empty_world
    = (Returned l, Decorate (CORS ["*"]) (Count 0 api_handler), w')
    /\ HTTPResponse.status_code (deref w' l) = 204.
Proof.
  destruct (cors_preflight_answers_itself ["*"] api_handler 0
              (request_with_headers GET "OPTIONS" []) empty_world)
    as (l & w' & Hhandle & _ & Hstatus & _); [reflexivity | reflexivity |].
  exists l, w'. split; [exact Hhandle | exact Hstatus].
Defined.

Lemma caching_serves_what_it_stored_witness :
  exists (l : loc) (cache1 : gmap string (loc * Z)) (h' : APIHandler) (w1 w4 : World),
    handle (Decorate (Caching 60 ∅) (Count 0 api_handler)) get_users empty_world
    = (Returned l, Decorate (Caching 60 cache1) (Count 1 h'), w1)
    /\ handle (Decorate (Caching 60 cache1) (Count 1 h'))
         (request_with_headers GET "/users" [("authorization", "Bearer admin-token-456")])
         w1
       = (Returned l, Decorate (Caching 60 cache1) (Count 1 h'), w4).
Proof.
  edestruct (caching_serves_what_it_stored demo_epoch 60 ∅ api_handler 0 get_users
               empty_world)
    as (cache1 & w1 & Hfirst & Hlater).
  - repeat split; vm_compute; discriminate.
  - reflexivity.
  - vm_compute. exact I.
  - vm_compute. reflexivity.
  - vm_compute. reflexivity.
  - destruct (Hlater
                (request_with_headers GET "/users"
                   [("authorization", "Bearer admin-token-456")]) w1)
      as (w4 & Hsecond); [reflexivity | reflexivity | reflexivity | |].
    + vm_compute in Hfirst. injection Hfirst as _ <-. vm_compute. reflexivity.
    + eexists _, _, _, _, _. split; [exact Hfirst | exact Hsecond].
Defined.

Lemma metrics_counts_non_2xx_as_failed_witness :
  exists (l : loc) (m' : Metrics) (h' : APIHandler) (w3 : World),
    handle (Decorate (MetricsOf fresh_metrics) api_handler) get_missing empty_world
    = (Returned l, Decorate (MetricsOf m') h', w3)
    /\ failed_requests m' = 1.
Proof.
  edestruct (metrics_counts_non_2xx_as_failed fresh_metrics api_handler get_missing
               empty_world) as (m' & w3 & Hhandle & _ & _ & Hfailed & _).
  - vm_compute. reflexivity.
  - eexists _, _, _, _. split; [exact Hhandle|]. rewrite Hfailed. vm_compute. reflexivity.
Defined.

Lemma running_average_is_the_mean_witness :
  exists after : EndpointStats,
    record_endpoint "GET /users" (elapsed_ms 0 4000) ∅ !! "GET /users" = Some after
    /\ count after = 1.
Proof.
  destruct (running_average_is_the_mean "GET /users" (elapsed_ms 0 4000) ∅ 0%Qc)
    as (after & Hlookup & Hcount & _).
  - vm_compute. discriminate.
  - vm_compute. reflexivity.
  - exists after. split; [exact Hlookup|]. rewrite Hcount. reflexivity.
Defined.

End FurtherDemo.

Section ProxyDemo.
Import StockAPI.
#[local] Existing Instance demo_clock.

Lemma proxy_serves_what_it_fetched_witness :
  exists (data : StockData) (self1 : CachingProxy (CountingService ExternalStockAPI))
         (w2 w4 : World),
    get_stock_price
      {| _real_service := CountCalls 0 external_stock_api; _cache_ttl := 5; _cache := ∅ |}
      "AAPL" (world_at 0)
    = (Fetched data, self1, w2)
    /\ calls (_real_service self1) = 1%nat
    /\ get_stock_price self1 "AAPL" (world_at 3) = (Fetched data, self1, w4).
Proof.
  edestruct (proxy_serves_what_it_fetched external_stock_api 0 5 ∅ "AAPL" (world_at 0))
    as (Hfirst & Hlater).
  - vm_compute. exact I.
  - vm_compute. reflexivity.
  - destruct (Hlater (world_at 3)) as (w4 & Hsecond); [vm_compute; reflexivity|].
    eexists _, _, _, _. split; [exact Hfirst|]. split; [reflexivity | exact Hsecond].
Defined.

Lemma proxy_failed_refresh_keeps_table_witness :
  get_stock_price
    {| _real_service := down_service; _cache_ttl := 5;
       _cache := {[ "AAPL" := {| ticker := "AAPL"; price := 0%Qc; timestamp := 0 |} ]} |}
    "AAPL" (world_at 9)
  = (Raised "ConnectionError",
     {| _real_service := down_service; _cache_ttl := 5;
        _cache := {[ "AAPL" := {| ticker := "AAPL"; price := 0%Qc; timestamp := 0 |} ]} |},
     world_at_refresh
       {| _real_service := down_service; _cache_ttl := 5;
          _cache := {[ "AAPL" := {| ticker := "AAPL"; price := 0%Qc; timestamp := 0 |} ]} |}
       "AAPL" (world_at 9)).
Proof.
  apply (proxy_failed_refresh_keeps_table down_service 5
           {[ "AAPL" := {| ticker := "AAPL"; price := 0%Qc; timestamp := 0 |} ]}
           "AAPL" (world_at 9)).
  - vm_compute. discriminate.
  - reflexivity.
Defined.

Lemma client_served_from_cache_witness :
  exists w' : World,
    client_app
      {| _real_service := down_service; _cache_ttl := 5;
         _cache := {[ "AAPL" := {| ticker := "AAPL"; price := 0%Qc; timestamp := 0 |} ]} |}
      "AAPL" (world_at 0)
    = (Some [EvResult "AAPL" 0%Qc; EvTimeTaken (clock 2 - clock 0)],
       {| _real_service := down_service; _cache_ttl := 5;
          _cache := {[ "AAPL" := {| ticker := "AAPL"; price := 0%Qc; timestamp := 0 |} ]} |},
       w').
Proof.
  apply (client_served_from_cache
           {| _real_service := down_service; _cache_ttl := 5;
              _cache := {[ "AAPL" := {| ticker := "AAPL"; price := 0%Qc; timestamp := 0 |} ]} |}
           "AAPL" (world_at 0)
           {| ticker := "AAPL"; price := 0%Qc; timestamp := 0 |}).
  - reflexivity.
  - vm_compute. reflexivity.
Defined.

Lemma cold_proxy_fetches_and_saves_witness :
  exists (data : StockData) (w1 : World),
    get_stock_price
      {| _real_service := external_stock_api; _cache_ttl := 5; _cache := ∅ |}
      "NFLX" (world_at 0)
    = (Fetched data,
       {| _real_service := external_stock_api; _cache_ttl := 5;
          _cache := {[ "NFLX" := data ]} |}, w1)
    /\ price data = 0%Qc.
Proof.
  destruct (cold_proxy_fetches_and_saves 5 "NFLX" (world_at 0))
    as (w1 & Hfetch & _ & Hunknown).
  eexists _, w1. split; [exact Hfetch|].
  apply Hunknown. intros Hin.
  repeat (apply elem_of_cons in Hin as [Hin|Hin]; [discriminate Hin|]).
  by apply elem_of_nil in Hin.
Defined.

End ProxyDemo.

(** ** Units stacked as in the demonstration *)

Section Stacks.
Import Middleware.
Context {RT : Runtime}.

(** X27.  The outer part of the demonstration's chain: metrics around
    logging around CORS around authentication.  A request that is not a
    preflight and that the authentication unit rejects comes back as a new
    401 response; whatever the authentication unit wraps (the rate limiter,
    the cache, the API handler) is not called; and the rejection is seen by
    the units outward of it: the logging unit writes its execution time,
    and the metrics unit counts one more request, as failed. *)
Theorem rejection_is_seen_by_outer_units {H : Type} {HH : HTTPHandler H}
  (m : Metrics) (allowed_origins : list string) (valid_tokens : gset string)
  (h : H) (n : nat) (request : HTTPRequest.t) (w : World) :
  rejected valid_tokens request ->
  (bool_decide (HTTPRequest.method request = GET)
   && String.eqb (HTTPRequest.path request) "OPTIONS") = false ->
  exists (l : loc) (m' : Metrics) (w' : World),
    handle
      (Decorate (MetricsOf m)
         (Decorate Logging
            (Decorate (CORS allowed_origins)
               (Decorate (Authentication valid_tokens) (Count n h))))) request w
    = (Returned l,
       Decorate (MetricsOf m')
         (Decorate Logging
            (Decorate (CORS allowed_origins)
               (Decorate (Authentication valid_tokens) (Count n h)))),
       w')
    /\ heap w !! l = None
    /\ HTTPResponse.status_code (deref w' l) = 401
    /\ is_Some (HTTPResponse.execution_time_ms (deref w' l))
    /\ total_requests m' = total_requests m + 1
    /\ failed_requests m' = failed_requests m + 1
    /\ successful_requests m' = successful_requests m.
Proof.
  intros Hrejected Hnormal.
  assert (exists (l : loc) (w1 : World),
            forall w0 : World,
              heap w0 = heap w ->
              exists w1 : World,
                handle (Decorate (Authentication valid_tokens) (Count n h)) request w0
                = (Returned (fresh (dom (heap w))),
                   Decorate (Authentication valid_tokens) (Count n h), w1)
                /\ heap w1 !! fresh (dom (heap w)) <> None
                /\ HTTPResponse.status_code (deref w1 (fresh (dom (heap w)))) = 401)
    as (_ & _ & Hauth).
  { exists 0%nat, w. intros w0 Hheap.
    unfold handle at 1, MiddlewareDecorator_handler, MiddlewareDecorator_handle; simpl.
    unfold AuthenticationMiddleware_handle, respond, alloc. simpl. rewrite Hheap.
    unfold rejected, credential in Hrejected.
    destruct (PyStr.truthy _); simpl.
    - rewrite bool_decide_eq_false_2 by exact Hrejected. simpl.
      eexists. split; [reflexivity|]. unfold deref; simpl.
      rewrite lookup_total_insert_eq, lookup_insert_eq. by split.
    - eexists. split; [reflexivity|]. unfold deref; simpl.
      rewrite lookup_total_insert_eq, lookup_insert_eq. by split. }
  set (l := fresh (dom (heap w))) in *.
  unfold handle at 1, MiddlewareDecorator_handler, MiddlewareDecorator_handle; simpl.
  unfold MetricsMiddleware_handle. simpl.
  unfold handle at 1, MiddlewareDecorator_handler, MiddlewareDecorator_handle; simpl.
  unfold LoggingMiddleware_handle. simpl.
  unfold handle at 1, MiddlewareDecorator_handler, MiddlewareDecorator_handle; simpl.
  unfold CORSMiddleware_handle. rewrite Hnormal.
  match goal with |- context [@handle ?A ?I ?x request ?w0] =>
    destruct (Hauth w0 eq_refl) as (w1 & Hinner & Hl & Hstatus);
    change (@handle A I x request w0)
      with (handle (Decorate (Authentication valid_tokens) (Count n h)) request w0);
    rewrite Hinner
  end.
  simpl.
  eexists l, _, _. split; [reflexivity|].
  split; [apply not_elem_of_dom, is_fresh|].
  assert (is_Some (heap (add_cors_headers allowed_origins request l w1) !! l)) as Hl2.
  { assert (is_Some (heap w1 !! l)) as Hl1
      by (destruct (heap w1 !! l); [by eexists | done]).
    unfold add_cors_headers. destruct (_ || _); [|exact Hl1].
    simpl. by rewrite !lookup_alter_eq, !fmap_is_Some. }
  destruct Hl2 as [rc Hrc].
  assert (HTTPResponse.status_code rc = 401) as Hrc401.
  { rewrite <- Hstatus, <- (status_add_cors_headers allowed_origins request l l w1).
    unfold deref.
    by rewrite (lookup_total_alt (heap (add_cors_headers _ _ _ _))), Hrc. }
  unfold record_response, HTTPResponse.is_success, deref; simpl.
  rewrite !lookup_total_alt, !lookup_alter_eq, !Hrc; simpl.
  rewrite Hrc401; simpl.
  repeat split; eauto.
Qed.

(** A miss whose fetch succeeds: the world the caching unit leaves, and
    the table it keeps. *)
Lemma caching_stores_success {H : Type} {HH : HTTPHandler H}
  (ttl_seconds : Z) (cache : gmap string (loc * Z)) (h : H)
  (request : HTTPRequest.t) (w : World) (l : loc) (h' : H) (w2 : World) :
  HTTPRequest.method request = GET ->
  stale cache (_generate_cache_key request) (clock (ticks w)) ->
  handle h request (world_at_fetch cache request w) = (Returned l, h', w2) ->
  HTTPResponse.is_success (deref w2 l) = true ->
  handle (Decorate (Caching ttl_seconds cache) h) request w
  = (Returned l,
     Decorate
       (Caching ttl_seconds
          (<[_generate_cache_key request := (l, clock (ticks w) + seconds ttl_seconds)]>
             (delete (_generate_cache_key request) cache))) h',
     mutate l (fun r => HTTPResponse.set_header r "x-cache" "MISS")
       (print (EvCacheStored ttl_seconds) w2)).
Proof.
  intros Hget Hstale Hinner Hsuccess.
  unfold handle at 1, MiddlewareDecorator_handler, MiddlewareDecorator_handle; simpl.
  unfold CachingMiddleware_handle.
  rewrite bool_decide_eq_true_2 by exact Hget. simpl.
  unfold stale, world_at_fetch in *.
  destruct (cache !! _generate_cache_key request) as [[cached expiry]|] eqn:Hentry.
  - rewrite (proj2 (Z.ltb_ge _ _) Hstale).
    unfold caching_fetch. simpl in Hinner. rewrite Hinner, Hsuccess. reflexivity.
  - rewrite (delete_id _ _ Hentry).
    unfold caching_fetch. simpl in Hinner. rewrite Hinner, Hsuccess. reflexivity.
Qed.

(** X28.  The caching unit around the compression unit, as in the
    demonstration's chain.  The stored response is the object the
    compression unit has marked: when a GET request that accepts gzip is
    answered with a success longer than 100 characters, the response is
    stored with [content-encoding: gzip], and while the entry is fresh and
    the object is not written to in between, every GET request with the same
    path and the same query parameters in the same order of insertion gets
    that object, marked as gzip, whether or not it accepts gzip itself;
    neither the compression unit's wrapped handler nor its size test runs
    again.  Stated for the calls on which the expiry,
    [now + timedelta(seconds=ttl_seconds)], is a datetime. *)
Theorem cache_serves_gzip_mark_to_any_client {H : Type} {HH : HTTPHandler H}
  (epoch : Z)
  (ttl_seconds : Z) (cache : gmap string (loc * Z)) (h : H) (n : nat)
  (request : HTTPRequest.t) (w : World) (l : loc) (h' : H) (w2 : World) :
  within_datetimes epoch (Caching ttl_seconds cache) (clock (ticks w)) ->
  HTTPRequest.method request = GET ->
  stale cache (_generate_cache_key request) (clock (ticks w)) ->
  handle h request (world_at_fetch cache request w) = (Returned l, h', w2) ->
  is_Some (heap w2 !! l) ->
  HTTPResponse.is_success (deref w2 l) = true ->
  PyStr.contains "gzip"
    (PyStr.lower
       (default "" (HTTPRequest.get_header request "accept-encoding" (Some "")))) = true ->
  (100 < String.length (HTTPResponse.body (deref w2 l)))%nat ->
  exists (cache1 : gmap string (loc * Z)) (w1 : World),
    handle (Decorate (Caching ttl_seconds cache) (Decorate Compression (Count n h)))
      request w
    = (Returned l,
       Decorate (Caching ttl_seconds cache1) (Decorate Compression (Count (S n) h')), w1)
    /\ HTTPResponse.headers (deref w1 l) !! "content-encoding" = Some "gzip"
    /\ forall (request2 : HTTPRequest.t) (w3 : World),
        HTTPRequest.method request2 = GET ->
        HTTPRequest.path request2 = HTTPRequest.path request ->
        HTTPRequest.query_params request2 = HTTPRequest.query_params request ->
        clock (ticks w3) < clock (ticks w) + seconds ttl_seconds ->
        heap w3 !! l = heap w1 !! l ->
        exists w4 : World,
          handle (Decorate (Caching ttl_seconds cache1)
                    (Decorate Compression (Count (S n) h'))) request2 w3
          = (Returned l,
             Decorate (Caching ttl_seconds cache1) (Decorate Compression (Count (S n) h')),
             w4)
          /\ HTTPResponse.headers (deref w4 l) !! "content-encoding" = Some "gzip".
Proof.
  intros _ Hget Hstale Hinner Hl Hsuccess Hgzip Hlong.
  assert (exists w2c : World,
            handle (Decorate Compression (Count n h)) request
              (world_at_fetch cache request w)
            = (Returned l, Decorate Compression (Count (S n) h'), w2c)
            /\ is_Some (heap w2c !! l)
            /\ HTTPResponse.is_success (deref w2c l) = true
            /\ HTTPResponse.headers (deref w2c l) !! "content-encoding" = Some "gzip")
    as (w2c & Hcompress & Hl2 & Hsuccess2 & Hmark).
  { unfold handle at 1, MiddlewareDecorator_handler, MiddlewareDecorator_handle; simpl.
    unfold CompressionMiddleware_handle.
    rewrite (counting_handle n h request _ _ _ _ Hinner). simpl.
    rewrite Hgzip, (proj2 (Nat.ltb_lt _ _) Hlong). simpl.
    eexists. split; [reflexivity|]. split; [|split].
    - simpl. by rewrite !lookup_alter_eq, !fmap_is_Some.
    - unfold HTTPResponse.is_success in *. rewrite deref_print.
      by rewrite !status_mutate_set_header.
    - rewrite deref_print.
      rewrite !deref_mutate by (repeat apply mutate_is_Some; exact Hl). simpl.
      rewrite !lookup_insert_ne by discriminate. apply lookup_insert_eq. }
  eexists _, _. split; [|split].
  - by apply caching_stores_success.
  - rewrite deref_mutate by exact Hl2. simpl.
    rewrite lookup_insert_ne by discriminate. exact Hmark.
  - intros request2 w3 Hget2 Hpath Hquery Hfresh Hsame.
    eexists. split.
    + apply caching_hit with (expiry := clock (ticks w) + seconds ttl_seconds);
        [exact Hget2| |exact Hfresh].
      rewrite (cache_key_deterministic request2 request) by congruence.
      apply lookup_insert_eq.
    + assert (is_Some (heap w3 !! l)) as Hl3.
      { rewrite Hsame. simpl. by rewrite lookup_alter_eq, fmap_is_Some. }
      rewrite deref_mutate by exact Hl3. simpl.
      rewrite lookup_insert_ne by discriminate.
      destruct Hl2 as [r2 Hr2].
      unfold deref in *. simpl in *.
      rewrite lookup_total_alt in Hmark. rewrite Hr2 in Hmark.
      rewrite lookup_total_alt, Hsame, lookup_alter_eq, Hr2. simpl in *.
      rewrite lookup_insert_ne by discriminate. exact Hmark.
Qed.

(** X29.  The rate limiter around the caching unit, as in the
    demonstration's chain.  The limiter charges a request before it knows
    how it will be answered: a GET request under the limit that the cache
    answers from its table is added to its identity's log all the same,
    although the wrapped handler does no work for it.  Stated for the calls
    on which the start of the window,
    [now - timedelta(seconds=window_seconds)], is a datetime. *)
Theorem cached_answers_consume_quota {H : Type} {HH : HTTPHandler H}
  (epoch : Z)
  (max_requests window_seconds : Z) (request_log : gmap PyVal (list (Z * Z)))
  (ttl_seconds : Z) (cache : gmap string (loc * Z)) (h : H) (n : nat)
  (request : HTTPRequest.t) (w : World) (l : loc) (expiry : Z) :
  within_datetimes epoch (RateLimiting max_requests window_seconds request_log)
    (clock (ticks w)) ->
  HTTPRequest.method request = GET ->
  cache !! _generate_cache_key request = Some (l, expiry) ->
  clock (S (ticks w)) < expiry ->
  let entries :=
    filter (fun e => clock (ticks w) - seconds window_seconds < e.1)
      (default [] (request_log !! identity request)) in
  recent_count entries < max_requests ->
  exists w' : World,
    handle
      (Decorate (RateLimiting max_requests window_seconds request_log)
         (Decorate (Caching ttl_seconds cache) (Count n h))) request w
    = (Returned l,
       Decorate
         (RateLimiting max_requests window_seconds
            (<[identity request := entries ++ [(clock (ticks w), 1)]]> request_log))
         (Decorate (Caching ttl_seconds cache) (Count n h)),
       w').
Proof.
  intros _ Hget Hentry Hfresh entries Hunder.
  assert (forall w0 : World,
            ticks w0 = S (ticks w) ->
            exists w' : World,
              handle (Decorate (Caching ttl_seconds cache) (Count n h)) request w0
              = (Returned l, Decorate (Caching ttl_seconds cache) (Count n h), w'))
    as Hhit.
  { intros w0 Hticks. eexists.
    apply caching_hit with (expiry := expiry); [exact Hget|exact Hentry|].
    by rewrite Hticks. }
  unfold handle at 1, MiddlewareDecorator_handler, MiddlewareDecorator_handle; simpl.
  unfold RateLimitingMiddleware_handle. fold (identity request). simpl.
  fold entries. rewrite (proj2 (Z.leb_gt _ _) Hunder).
  match goal with |- context [@handle ?A ?I ?x request ?w0] =>
    destruct (Hhit w0 eq_refl) as (w' & Hinner);
    change (@handle A I x request w0)
      with (handle (Decorate (Caching ttl_seconds cache) (Count n h)) request w0);
    rewrite Hinner
  end.
  exists w'. by rewrite insert_insert_eq.
Qed.

End Stacks.

Section StacksDemo.
Import Middleware.
#[local] Existing Instance demo_runtime.

Lemma rejection_is_seen_by_outer_units_witness :
  exists (l : loc) (m' : Metrics) (w' : World),
    handle
      (Decorate (MetricsOf fresh_metrics)
         (Decorate Logging
            (Decorate (CORS ["https://example.com"; "*"])
               (Decorate (Authentication demo_tokens) (Count 0 api_handler)))))
      get_users empty_world
    = (Returned l,
       Decorate (MetricsOf m')
         (Decorate Logging
            (Decorate (CORS ["https://example.com"; "*"])
               (Decorate (Authentication demo_tokens) (Count 0 api_handler)))),
       w')
    /\ HTTPResponse.status_code (deref w' l) = 401
    /\ failed_requests m' = 1.
Proof.
  edestruct (rejection_is_seen_by_outer_units fresh_metrics ["https://example.com"; "*"]
               demo_tokens api_handler 0 get_users empty_world)
    as (l & m' & w' & Hhandle & _ & Hstatus & _ & _ & Hfailed & _).
  - vm_compute. exact I.
  - reflexivity.
  - exists l, m', w'. split; [exact Hhandle|]. split; [exact Hstatus|exact Hfailed].
Defined.

Lemma cache_serves_gzip_mark_to_any_client_witness :
  exists (l : loc) (cache1 : gmap string (loc * Z)) (h' : APIHandler) (w1 w4 : World),
    handle (Decorate (Caching 60 ∅) (Decorate Compression (Count 0 api_handler)))
      (request_with_headers GET "/users" [("accept-encoding", "gzip")]) empty_world
    = (Returned l, Decorate (Caching 60 cache1) (Decorate Compression (Count 1 h')), w1)
    /\ handle (Decorate (Caching 60 cache1) (Decorate Compression (Count 1 h')))
         get_users w1
       = (Returned l, Decorate (Caching 60 cache1) (Decorate Compression (Count 1 h')), w4)
    /\ HTTPResponse.headers (deref w4 l) !! "content-encoding" = Some "gzip".
Proof.
  edestruct (cache_serves_gzip_mark_to_any_client demo_epoch 60 ∅ api_handler 0
               (request_with_headers GET "/users" [("accept-encoding", "gzip")])
               empty_world)
    as (cache1 & w1 & Hfirst & _ & Hlater).
  - repeat split; vm_compute; discriminate.
  - reflexivity.
  - vm_compute. exact I.
  - vm_compute. reflexivity.
  - vm_compute. by eexists.
  - vm_compute. reflexivity.
  - vm_compute. reflexivity.
  - apply Nat.ltb_lt. vm_compute. reflexivity.
  - destruct (Hlater get_users w1) as (w4 & Hsecond & Hmark);
      [reflexivity | reflexivity | reflexivity | | reflexivity |].
    + vm_compute in Hfirst. injection Hfirst as _ <-. vm_compute. reflexivity.
    + eexists _, _, _, _, _. split; [exact Hfirst|]. split; [exact Hsecond | exact Hmark].
Defined.

Lemma cached_answers_consume_quota_witness :
  exists (request_log' : gmap PyVal (list (Z * Z))) (w' : World),
    handle
      (Decorate (RateLimiting 5 60 ∅)
         (Decorate (Caching 60 stored_cache) (Count 0 api_handler))) get_users (world_at 1)
    = (Returned 0%nat,
       Decorate (RateLimiting 5 60 request_log')
         (Decorate (Caching 60 stored_cache) (Count 0 api_handler)),
       w')
    /\ request_log' !! identity get_users = Some [(clock 1%nat, 1)].
Proof.
  destruct (cached_answers_consume_quota demo_epoch 5 60 ∅ 60 stored_cache api_handler 0
              get_users (world_at 1) 0%nat (0 + seconds 60))
    as (w' & Hhandle).
  - repeat split; vm_compute; discriminate.
  - reflexivity.
  - vm_compute. reflexivity.
  - vm_compute. reflexivity.
  - vm_compute. reflexivity.
  - eexists _, w'. split; [exact Hhandle|].
    rewrite lookup_insert_eq. reflexivity.
Defined.

Lemma logging_overwrites_execution_time_witness :
  exists (l : loc) (h' : APIHandler) (w' : World) (ms : Qc),
    handle (Decorate Logging api_handler) get_users empty_world
    = (Returned l, Decorate Logging h', w')
    /\ HTTPResponse.execution_time_ms (deref w' l) = Some ms.
Proof.
  edestruct (logging_overwrites_execution_time api_handler get_users empty_world)
    as (w' & Hhandle & Htime).
  - vm_compute. reflexivity.
  - vm_compute. by eexists.
  - eexists _, _, w', _. split; [exact Hhandle | exact Htime].
Defined.

Lemma cache_hit_mutates_stored_response_witness :
  exists w' : World,
    handle (Decorate (Caching 60 stored_cache) api_handler) get_users (world_at 1)
    = (Returned 0%nat, Decorate (Caching 60 stored_cache) api_handler, w')
    /\ HTTPResponse.headers (deref w' 0%nat) !! "x-cache" = Some "HIT".
Proof.
  destruct (cache_hit_mutates_stored_response 60 stored_cache api_handler get_users
              (world_at 1) 0%nat (0 + seconds 60))
    as (w' & Hhandle & Hheaders).
  - reflexivity.
  - vm_compute. reflexivity.
  - vm_compute. reflexivity.
  - vm_compute. by eexists.
  - exists w'. split; [exact Hhandle|]. rewrite Hheaders. apply lookup_insert_eq.
Defined.

End StacksDemo.
